(** * The personal-finance bookkeeping API of [app.py]

    A shallow embedding of the Flask service: the three tables
    ([Transaction], [Category], [User]), the SQLAlchemy session the
    handlers work through, the request parsers and the four resources,
    followed by the properties of the service.

    Conventions of the embedding.
    - Python [int] is [Z], [str] is [string] (ASCII text), [bytes] is
      [list byte], [float] is a binary64 [float], [None] is the [None]
      of an [option].
    - A handler either returns or raises; an exception no handler
      catches ends the request with status 500.
    - The store is the SQLite file of line 10.  It refuses an integer
      outside 64 bits and a NULL or NaN in a column declared
      [nullable=False], holds a negative zero as zero, and, as SQLite
      does by default, enforces no foreign key.
    - A table is the list of its rows in rowid order.  A new row gets the
      rowid SQLite gives an [INTEGER PRIMARY KEY]: 1 in an empty table,
      one more than the largest rowid otherwise (a table is taken never
      to reach the last rowid).
    - The library functions the handlers call on dates and amounts
      ([strptime], [strftime], [locale.currency]) are modelled after the
      Python library on glibc; bcrypt and the JWT extension are the
      fields of the class [Libs], and the service is parametric in them. *)

From Stdlib Require Import ZArith List String Ascii Strings.Byte Bool Lia.
From Stdlib Require Import Floats.PrimFloat Floats.SpecFloat Floats.FloatOps.
Import ListNotations.

Open Scope string_scope.
Open Scope Z_scope.

(* ================================================================= *)
(** ** Text and digits *)

Definition is_digit (c : ascii) : bool :=
  let n := Z.of_N (N_of_ascii c) in (48 <=? n) && (n <=? 57).

Definition digit_val (c : ascii) : Z := Z.of_N (N_of_ascii c) - 48.

Definition digit_char (d : Z) : ascii := ascii_of_N (Z.to_N (d + 48)).

Definition in_range (lo hi c : ascii) : bool :=
  let n := N_of_ascii c in
  (N_of_ascii lo <=? n)%N && (n <=? N_of_ascii hi)%N.

(** Python's [int(s)] on the texts the date directives capture: leading
    blanks are skipped, then the decimal digits are read. *)
Fixpoint int_digits (acc : Z) (s : string) : Z :=
  match s with
  | EmptyString => acc
  | String c s' => int_digits (10 * acc + digit_val c) s'
  end.

Fixpoint int (s : string) : Z :=
  match s with
  | String " " s' => int s'
  | _ => int_digits 0 s
  end.

(** The decimal numeral of [n >= 0], without leading zeros; [fuel]
    bounds the number of digits. *)
Fixpoint decimal (fuel : nat) (n : Z) : string :=
  match fuel with
  | O => ""
  | S fuel' =>
      (if n <? 10 then "" else decimal fuel' (n / 10))
      ++ String (digit_char (n mod 10)) ""
  end.

Definition str_of_Z (n : Z) : string := decimal (S (Z.to_nat (Z.log2 n))) n.

Fixpoint zeros (n : nat) : string :=
  match n with O => "" | S n' => String "0" (zeros n') end.

(** The decimal text of [n] in at least [w] characters, zero filled. *)
Definition zfill (w : nat) (n : Z) : string :=
  let s := str_of_Z n in zeros (w - String.length s) ++ s.

(* ================================================================= *)
(** ** Exceptions *)

(** The exceptions that reach the handlers: [ValueError] and [TypeError]
    of the library functions, and [DatabaseError] for what the database
    layer raises when it binds or writes a value the store refuses
    ([OverflowError] for an integer outside 64 bits, [IntegrityError]
    for a NULL in a column declared [nullable=False]). *)
Inductive Raised := ValueError | TypeError | DatabaseError.

(* ================================================================= *)
(** ** Calendar dates: [datetime.date], [strptime], [strftime] *)

Module Date.
Record t := mk { year : Z; month : Z; day : Z }.
End Date.

Definition isleap (y : Z) : bool :=
  (y mod 4 =? 0) && (negb (y mod 100 =? 0) || (y mod 400 =? 0)).

Definition days_in_month (y m : Z) : Z :=
  if m =? 2 then (if isleap y then 29 else 28)
  else if (m =? 4) || (m =? 6) || (m =? 9) || (m =? 11) then 30
  else 31.

(** The range checks of the [datetime.date] constructor
    (MINYEAR = 1, MAXYEAR = 9999). *)
Definition date_ok (y m d : Z) : bool :=
  (1 <=? y) && (y <=? 9999) && (1 <=? m) && (m <=? 12)
  && (1 <=? d) && (d <=? days_in_month y m).

(** [datetime.date(y, m, d)]: [None] stands for the [ValueError]. *)
Definition datetime_date (y m d : Z) : option Date.t :=
  if date_ok y m d then Some (Date.mk y m d) else None.

(** The regular expression [_strptime] compiles ['%Y-%m-%d'] to is
<<
   (?P<Y>\d\d\d\d)-(?P<m>1[0-2]|0[1-9]|[1-9])-(?P<d>3[0-1]|[1-2]\d|0[1-9]|[1-9]| [1-9])
>>
    Each directive below takes the input and the rest of the match as a
    continuation [k] (the captured text, the input left), and tries its
    alternatives in the order the regular expression lists them: the
    first alternative under which the rest matches wins. *)
Definition orelse {A} (p q : option A) : option A :=
  match p with Some x => Some x | None => q end.

Definition re_Y {A} (s : string) (k : string -> string -> option A) : option A :=
  match s with
  | String a (String b (String c (String d r))) =>
      if is_digit a && is_digit b && is_digit c && is_digit d
      then k (String a (String b (String c (String d "")))) r
      else None
  | _ => None
  end.

Definition re_lit {A} (l : ascii) (s : string) (k : string -> option A) : option A :=
  match s with
  | String c r => if Ascii.eqb c l then k r else None
  | EmptyString => None
  end.

(** Two characters, the first in [[a1, b1]] and the second in [[a2, b2]]. *)
Definition re_two {A} (a1 b1 a2 b2 : ascii) (s : string)
    (k : string -> string -> option A) : option A :=
  match s with
  | String c1 (String c2 r) =>
      if in_range a1 b1 c1 && in_range a2 b2 c2
      then k (String c1 (String c2 "")) r else None
  | _ => None
  end.

(** One character in [[a, b]]. *)
Definition re_one {A} (a b : ascii) (s : string)
    (k : string -> string -> option A) : option A :=
  match s with
  | String c r => if in_range a b c then k (String c "") r else None
  | EmptyString => None
  end.

Definition re_m {A} (s : string) (k : string -> string -> option A) : option A :=
  orelse (re_two "1" "1" "0" "2" s k)
 (orelse (re_two "0" "0" "1" "9" s k)
         (re_one "1" "9" s k)).

Definition re_d {A} (s : string) (k : string -> string -> option A) : option A :=
  orelse (re_two "3" "3" "0" "1" s k)
 (orelse (re_two "1" "2" "0" "9" s k)
 (orelse (re_two "0" "0" "1" "9" s k)
 (orelse (re_one "1" "9" s k)
         (re_two " " " " "1" "9" s k)))).

(** [format_regex.match(data_string)]: the three captured groups and the
    input the match left unread. *)
Definition format_regex_match (data_string : string)
    : option (string * string * string * string) :=
  re_Y data_string (fun Y r1 =>
  re_lit "-" r1 (fun r2 =>
  re_m r2 (fun m r3 =>
  re_lit "-" r3 (fun r4 =>
  re_d r4 (fun d r5 => Some (Y, m, d, r5)))))).

(** [datetime.datetime.strptime(date_str, '%Y-%m-%d').date()] on a text;
    [None] stands for the [ValueError] the handlers catch (no match,
    unconverted data after the match, or a date the calendar does not
    have). *)
Definition strptime (date_str : string) : option Date.t :=
  match format_regex_match date_str with
  | None => None
  | Some (Y, m, d, rest) =>
      match rest with
      | EmptyString => datetime_date (int Y) (int m) (int d)
      | String _ _ => None
      end
  end.

(** The same call on the value of an argument, which is [None] when the
    body had [null] for it: [strptime] then raises [TypeError]. *)
Definition datetime_strptime (date_str : option string) : Raised + Date.t :=
  match date_str with
  | None => inl TypeError
  | Some s =>
      match strptime s with
      | Some d => inr d
      | None => inl ValueError
      end
  end.

Definition pad2 (n : Z) : string :=
  String (digit_char (n / 10 mod 10)) (String (digit_char (n mod 10)) "").

Definition pad4 (n : Z) : string :=
  String (digit_char (n / 1000 mod 10))
 (String (digit_char (n / 100 mod 10)) (pad2 n)).

(** [d.strftime('%Y-%m-%d')] as the C library prints it: the month and
    the day in two digits, the year as a decimal number, which glibc
    does not pad (the year 987 is printed 987, not 0987). *)
Definition strftime (d : Date.t) : string :=
  str_of_Z (Date.year d) ++ "-" ++ pad2 (Date.month d) ++ "-" ++ pad2 (Date.day d).

(** A date in ten characters: the year in four digits, the month and
    the day in two. *)
Definition iso (d : Date.t) : string :=
  pad4 (Date.year d) ++ "-" ++ pad2 (Date.month d) ++ "-" ++ pad2 (Date.day d).

(** The form the error message asks for, read strictly: four digits, a
    dash, two digits, a dash, two digits, naming a day of the calendar. *)
Definition is_YYYY_MM_DD (s : string) : bool :=
  match s with
  | String y1 (String y2 (String y3 (String y4 (String s1
   (String m1 (String m2 (String s2 (String d1 (String d2 ""))))))))) =>
      is_digit y1 && is_digit y2 && is_digit y3 && is_digit y4
      && Ascii.eqb s1 "-" && is_digit m1 && is_digit m2
      && Ascii.eqb s2 "-" && is_digit d1 && is_digit d2
      && date_ok (1000 * digit_val y1 + 100 * digit_val y2
                  + 10 * digit_val y3 + digit_val y4)
                 (10 * digit_val m1 + digit_val m2)
                 (10 * digit_val d1 + digit_val d2)
  | _ => false
  end.

(** A text in that form names a year of at least 1000 when its first
    digit is not 0. *)
Definition year_from_1000 (s : string) : bool :=
  match s with
  | String y1 _ => negb (Ascii.eqb y1 "0")
  | EmptyString => false
  end.

(* ================================================================= *)
(** ** Currency text: [locale.currency] under the [id_ID] locale *)

(** The monetary conventions [localeconv()] returns. *)
Record lconv := {
  currency_symbol : string;
  mon_decimal_point : string;
  mon_thousands_sep : string;
  mon_grouping : list Z;
  positive_sign : string;
  negative_sign : string;
  frac_digits : Z;
  p_cs_precedes : bool;
  p_sep_by_space : bool;
  n_cs_precedes : bool;
  n_sep_by_space : bool;
  p_sign_posn : Z;
  n_sign_posn : Z
}.

(** Line 15 selects the locale [id_ID]; its conventions are data of the
    platform's C library (rupiah sign in front, dot between the groups of
    three, comma before two decimals), not of the repository. *)
Definition localeconv : lconv := {|
  currency_symbol := "Rp";
  mon_decimal_point := ",";
  mon_thousands_sep := ".";
  mon_grouping := [3; 3; 0];
  positive_sign := "";
  negative_sign := "-";
  frac_digits := 2;
  p_cs_precedes := true;
  p_sep_by_space := false;
  n_cs_precedes := true;
  n_sep_by_space := false;
  p_sign_posn := 1;
  n_sign_posn := 1
|}.

Definition CHAR_MAX : Z := 127.

Definition round_half_even (num den : Z) : Z :=
  let q := num / den in
  match (2 * (num mod den)) ?= den with
  | Lt => q
  | Gt => q + 1
  | Eq => if Z.even q then q else q + 1
  end.

(** The fixed-point text of a scaled integer [n = x * 10^digits]. *)
Definition fixed_point (digits : Z) (n : Z) : string :=
  if digits <=? 0 then str_of_Z n
  else str_of_Z (n / 10 ^ digits) ++ "." ++ zfill (Z.to_nat digits) (n mod 10 ^ digits).

(** [f'{x:.{digits}f}'] for [x = abs(val)]: the exact value [m * 2^e] of
    the double, rounded to [digits] decimals, ties to even. *)
Definition format_f (digits : Z) (x : float) : string :=
  match Prim2SF x with
  | S754_nan => "nan"
  | S754_infinity _ => "inf"
  | S754_zero _ => fixed_point digits 0
  | S754_finite _ m e =>
      fixed_point digits
        (if 0 <=? e then Z.pos m * 2 ^ e * 10 ^ digits
         else round_half_even (Z.pos m * 10 ^ digits) (2 ^ (- e)))
  end.

Fixpoint join (sep : string) (parts : list string) : string :=
  match parts with
  | [] => ""
  | [p] => p
  | p :: ps => p ++ sep ++ join sep ps
  end.

(** [s[-n:]] and [s[:-n]] for [n >= 1]. *)
Definition take_last (n : Z) (s : string) : string :=
  substring (String.length s - Z.to_nat n) (Z.to_nat n) s.

Definition drop_last (n : Z) (s : string) : string :=
  substring 0 (String.length s - Z.to_nat n) s.

Definition last_char (s : string) : option ascii :=
  match String.length s with
  | O => None
  | S n => String.get n s
  end.

(** One step of the generator [_grouping_intervals]: the interval it
    yields and its state afterwards (the groupings left, the last
    interval); [None] when it is exhausted. *)
Definition next_interval (grouping : list Z) (last_interval : option Z)
    : option (Z * list Z * option Z) :=
  match grouping with
  | [] => None
  | interval :: rest =>
      if interval =? CHAR_MAX then None
      else if interval =? 0 then
        match last_interval with
        | None => None
        | Some l => Some (l, grouping, last_interval)
        end
      else Some (interval, rest, Some interval)
  end.

(** The loop of [_group], from right to left: the characters left of the
    digits, what is left of [s], the groups cut so far. *)
Fixpoint group_loop (fuel : nat) (grouping : list Z) (last_interval : option Z)
    (s : string) (groups : list string) : string * string * list string :=
  match fuel with
  | O => ("", s, groups)
  | S fuel' =>
      match next_interval grouping last_interval with
      | None => ("", s, groups)
      | Some (interval, grouping', last') =>
          match last_char s with
          | Some c =>
              if is_digit c
              then group_loop fuel' grouping' last' (drop_last interval s)
                     (groups ++ [take_last interval s])%list
              else (s, "", groups)
          | None => (s, "", groups)
          end
      end
  end.

(** [_group(s, monetary=True)[0]] on a text without trailing blanks. *)
Definition group (conv : lconv) (s : string) : string :=
  match mon_grouping conv with
  | [] => s
  | grouping =>
      let '(left_spaces, s', groups) :=
        group_loop (S (String.length s)) grouping None s [] in
      let groups := match s' with EmptyString => groups | _ => (groups ++ [s'])%list end in
      left_spaces ++ join (mon_thousands_sep conv) (rev groups)
  end.

(** [formatted.split('.')] on a text with at most one point. *)
Fixpoint split_point (s : string) : option (string * string) :=
  match s with
  | EmptyString => None
  | String c r =>
      if Ascii.eqb c "." then Some ("", r)
      else match split_point r with
           | Some (a, b) => Some (String c a, b)
           | None => None
           end
  end.

(** [_localize(formatted, grouping, monetary=True)]; the text has no
    padding, so there is none to strip after the grouping. *)
Definition localize (conv : lconv) (formatted : string) (grouping : bool) : string :=
  match split_point formatted with
  | Some (int_part, frac_part) =>
      (if grouping then group conv int_part else int_part)
      ++ mon_decimal_point conv ++ frac_part
  | None => if grouping then group conv formatted else formatted
  end.

Fixpoint replace_char (c : ascii) (by_ : string) (s : string) : string :=
  match s with
  | EmptyString => ""
  | String x r =>
      (if Ascii.eqb x c then by_ else String x "") ++ replace_char c by_ r
  end.

(** [locale.currency(val, grouping=grouping)], with [symbol] and
    [international] at their defaults.  The check for the C locale
    ([frac_digits = 127]) is not taken under [id_ID]. *)
Definition currency (val : float) (grouping : bool) : string :=
  let conv := localeconv in
  let digits := frac_digits conv in
  let neg := PrimFloat.ltb val 0%float in
  let s := localize conv (format_f digits (PrimFloat.abs val)) grouping in
  let s := "<" ++ s ++ ">" in
  let smb := currency_symbol conv in
  let precedes := if neg then n_cs_precedes conv else p_cs_precedes conv in
  let separated := if neg then n_sep_by_space conv else p_sep_by_space conv in
  let s := if precedes then smb ++ (if separated then " " else "") ++ s
           else s ++ (if separated then " " else "") ++ smb in
  let sign_pos := if neg then n_sign_posn conv else p_sign_posn conv in
  let sign := if neg then negative_sign conv else positive_sign conv in
  let s := if sign_pos =? 0 then "(" ++ s ++ ")"
           else if sign_pos =? 1 then sign ++ s
           else if sign_pos =? 2 then s ++ sign
           else if sign_pos =? 3 then replace_char "<" sign s
           else if sign_pos =? 4 then replace_char ">" sign s
           else sign ++ s in
  replace_char ">" "" (replace_char "<" "" s).

(** *** What a rupiah text says

    The reading of the currency text that the properties below compare
    [currency] with: the amount in hundredths, the numeral with a dot
    between groups of three digits, and the text made of them. *)

(** The amount in hundredths: the exact value [m * 2^e] of [|x|] times
    100, rounded to the nearest integer, ties to even; [None] when [x]
    is infinite or not a number. *)
Definition cents (x : float) : option Z :=
  match Prim2SF (PrimFloat.abs x) with
  | S754_zero _ => Some 0
  | S754_finite _ m e =>
      Some (if 0 <=? e then Z.pos m * 2 ^ e * 100
            else round_half_even (Z.pos m * 100) (2 ^ (- e)))
  | S754_infinity _ => None
  | S754_nan => None
  end.

Definition pad3 (n : Z) : string := String (digit_char (n / 100 mod 10)) (pad2 n).

(** The decimal numeral of [n] with a dot before every group of three
    digits counted from the right. *)
Fixpoint thousands (fuel : nat) (n : Z) : string :=
  match fuel with
  | O => str_of_Z n
  | S fuel' =>
      if n <? 1000 then str_of_Z n
      else thousands fuel' (n / 1000) ++ "." ++ pad3 (n mod 1000)
  end.

Definition grouped (n : Z) : string := thousands (Z.to_nat (Z.log2 n)) n.

(** The rupiah text of [c] hundredths: the sign, the symbol, the grouped
    rupiahs, a comma and two digits. *)
Definition rupiah (negative : bool) (c : Z) : string :=
  (if negative then "-" else "") ++ "Rp" ++ grouped (c / 100) ++ ","
  ++ pad2 (c mod 100).

Fixpoint only_digits (s : string) : string :=
  match s with
  | EmptyString => ""
  | String c r => if is_digit c then String c (only_digits r) else only_digits r
  end.

(** The number a text shows when its digits are read in order: for a
    rupiah text, the amount in hundredths. *)
Definition shown_cents (s : string) : Z := int_digits 0 (only_digits s).


(** The groups of three digits of [n], from the right. *)
Fixpoint groups_of (fuel : nat) (n : Z) : list string :=
  match fuel with
  | O => [str_of_Z n]
  | S fuel' =>
      if n <? 1000 then [str_of_Z n]
      else pad3 (n mod 1000) :: groups_of fuel' (n / 1000)
  end.

Fixpoint all_chars (p : ascii -> bool) (s : string) : bool :=
  match s with
  | EmptyString => true
  | String c r => p c && all_chars p r
  end.

(** The states of the generator of intervals under the grouping of
    [id_ID]: every interval it yields is 3. *)
Definition id_ID_intervals (grouping : list Z) (last_interval : option Z) : Prop :=
  grouping = [3; 3; 0] /\ last_interval = None
  \/ grouping = [3; 0] /\ last_interval = Some 3
  \/ grouping = [0] /\ last_interval = Some 3.
(* ================================================================= *)
(** ** The tables (lines 22-38) *)

Module Transaction.
Record t := mk {
  id : Z;
  description : string;
  amount : float;
  category_id : Z;
  date : Date.t
}.
End Transaction.

Module Category.
Record t := mk { id : Z; name : string }.
End Category.

(** [password] holds what [generate_password_hash] returns, which is
    [bytes], never the [str] the client sent. *)
Module User.
Record t := mk { id : Z; username : string; password : list byte }.
End User.

Record DB := {
  transactions : list Transaction.t;
  categories : list Category.t;
  users : list User.t
}.

Definition empty_db : DB := {| transactions := []; categories := []; users := [] |}.

(** The rowid of the next row of a table whose rowids are [ids]. *)
Definition next_id (ids : list Z) : Z :=
  match ids with
  | [] => 1
  | i :: rest => 1 + fold_left Z.max rest i
  end.

(** The integers sqlite3 binds: those of 64 bits, signed. *)
Definition int64 (n : Z) : bool := (- 2 ^ 63 <=? n) && (n <? 2 ^ 63).

(** What a [Float] column holds after [x] is written to it: SQLite keeps
    a negative zero as zero, and every other number as it is. *)
Definition sqlite_real (x : float) : float :=
  if PrimFloat.eqb x 0%float then 0%float else x.

(* ================================================================= *)
(** ** The session: a unit of work over the database

    [db.session] is scoped to the request.  It reads the database as it
    was committed, keeps the objects it loaded or added together with the
    changes made to them ([pending]), writes them at [commit], and is
    removed when the request ends, which discards what was not
    committed.  An object the handler holds is named by its primary
    key: assigning to its attribute changes the row of that key in
    [pending].  When an object was given a value its column refuses
    ([None] or NaN where the column is [nullable=False], an integer
    outside 64 bits), the session is [unflushable]: the next [commit]
    raises and writes nothing. *)

Record Session := { committed : DB; pending : DB; unflushable : bool }.

(** A computation in a session returns a value or raises. *)
Definition M (A : Type) : Type := Session -> (Raised + A) * Session.

Definition ret {A} (a : A) : M A := fun s => (inr a, s).

Definition raise {A} (e : Raised) : M A := fun s => (inl e, s).

Definition bind {A B} (m : M A) (f : A -> M B) : M B :=
  fun s =>
    match m s with
    | (inr a, s') => f a s'
    | (inl e, s') => (inl e, s')
    end.

Declare Scope session_scope.
Delimit Scope session_scope with session.
Notation "x <- m ;; k" := (bind m (fun x => k))
  (at level 61, m at next level, right associativity) : session_scope.
Notation "m ;; k" := (bind m (fun _ => k))
  (at level 61, right associativity) : session_scope.
Open Scope session_scope.

Definition reads {A} (f : DB -> A) : M A := fun s => (inr (f (pending s)), s).

Definition writes (f : DB -> DB) : M unit :=
  fun s => (inr tt, {| committed := committed s;
                       pending := f (pending s);
                       unflushable := unflushable s |}).

(** An object of the session holds a value its column refuses. *)
Definition refused : M unit :=
  fun s => (inr tt, {| committed := committed s;
                       pending := pending s;
                       unflushable := true |}).

(** [db.session.commit()]: the flush writes the pending changes, or
    raises and rolls them back. *)
Definition session_commit : M unit :=
  fun s =>
    if unflushable s
    then (inl DatabaseError, {| committed := committed s;
                                pending := committed s;
                                unflushable := false |})
    else (inr tt, {| committed := pending s;
                     pending := pending s;
                     unflushable := false |}).

(** [Transaction.query.get(id)]: the row of that key, [None] when no
    row has it; sqlite3 refuses to bind a key outside 64 bits, which no
    row has, and the lookup raises. *)
Definition Transaction_query_get (i : Z) : M (option Transaction.t) :=
  fun s =>
    match find (fun t => Transaction.id t =? i) (transactions (pending s)) with
    | Some t => (inr (Some t), s)
    | None => if int64 i then (inr None, s) else (inl DatabaseError, s)
    end.

(** [Transaction.query.all()] *)
Definition Transaction_query_all : M (list Transaction.t) := reads transactions.

(** [db.session.add(Transaction(...))]: the row the flush inserts, when
    the store takes its values. *)
Definition session_add_Transaction (description : option string)
    (amount : option float) (category_id : option Z) (date : Date.t) : M unit :=
  match description, amount, category_id with
  | Some d, Some a, Some c =>
      if int64 c && negb (PrimFloat.is_nan a) then
        writes (fun db =>
          {| transactions :=
               (transactions db
                ++ [Transaction.mk (next_id (map Transaction.id (transactions db)))
                      d (sqlite_real a) c date])%list;
             categories := categories db;
             users := users db |})
      else refused
  | _, _, _ => refused
  end.

(** Assignment to attributes of the transaction of key [i]. *)
Definition Transaction_update (i : Z) (f : Transaction.t -> Transaction.t) : M unit :=
  writes (fun db =>
    {| transactions :=
         map (fun t => if Transaction.id t =? i then f t else t) (transactions db);
       categories := categories db;
       users := users db |}).

Definition set_description (v : string) (t : Transaction.t) : Transaction.t :=
  Transaction.mk (Transaction.id t) v (Transaction.amount t)
    (Transaction.category_id t) (Transaction.date t).

Definition set_amount (v : float) (t : Transaction.t) : Transaction.t :=
  Transaction.mk (Transaction.id t) (Transaction.description t) v
    (Transaction.category_id t) (Transaction.date t).

Definition set_category_id (v : Z) (t : Transaction.t) : Transaction.t :=
  Transaction.mk (Transaction.id t) (Transaction.description t)
    (Transaction.amount t) v (Transaction.date t).

Definition set_date (v : Date.t) (t : Transaction.t) : Transaction.t :=
  Transaction.mk (Transaction.id t) (Transaction.description t)
    (Transaction.amount t) (Transaction.category_id t) v.

(** [transaction.description = v], [transaction.amount = v],
    [transaction.category_id = v] for the value of an argument. *)
Definition assign_description (i : Z) (v : option string) : M unit :=
  match v with
  | Some x => Transaction_update i (set_description x)
  | None => refused
  end.

Definition assign_amount (i : Z) (v : option float) : M unit :=
  match v with
  | Some x =>
      if PrimFloat.is_nan x then refused
      else Transaction_update i (set_amount (sqlite_real x))
  | None => refused
  end.

Definition assign_category_id (i : Z) (v : option Z) : M unit :=
  match v with
  | Some x => if int64 x then Transaction_update i (set_category_id x) else refused
  | None => refused
  end.

(** [db.session.delete(transaction)] *)
Definition session_delete_Transaction (i : Z) : M unit :=
  writes (fun db =>
    {| transactions := filter (fun t => negb (Transaction.id t =? i)) (transactions db);
       categories := categories db;
       users := users db |}).

(** The same for [Category]. *)
Definition Category_query_get (i : Z) : M (option Category.t) :=
  fun s =>
    match find (fun c => Category.id c =? i) (categories (pending s)) with
    | Some c => (inr (Some c), s)
    | None => if int64 i then (inr None, s) else (inl DatabaseError, s)
    end.

Definition Category_query_all : M (list Category.t) := reads categories.

Definition session_add_Category (name : option string) : M unit :=
  match name with
  | Some n =>
      writes (fun db =>
        {| transactions := transactions db;
           categories :=
             (categories db
              ++ [Category.mk (next_id (map Category.id (categories db))) n])%list;
           users := users db |})
  | None => refused
  end.

Definition Category_update (i : Z) (f : Category.t -> Category.t) : M unit :=
  writes (fun db =>
    {| transactions := transactions db;
       categories := map (fun c => if Category.id c =? i then f c else c) (categories db);
       users := users db |}).

Definition set_name (v : string) (c : Category.t) : Category.t :=
  Category.mk (Category.id c) v.

Definition assign_name (i : Z) (v : option string) : M unit :=
  match v with
  | Some x => Category_update i (set_name x)
  | None => refused
  end.

Definition session_delete_Category (i : Z) : M unit :=
  writes (fun db =>
    {| transactions := transactions db;
       categories := filter (fun c => negb (Category.id c =? i)) (categories db);
       users := users db |}).

(** [User.query.filter_by(username=username).first()]; for [None] the
    query asks for a NULL username, which no row has. *)
Definition User_query_filter_by_username_first (username : option string)
    : M (option User.t) :=
  match username with
  | Some name =>
      reads (fun db => find (fun u => String.eqb (User.username u) name) (users db))
  | None => ret None
  end.

Definition session_add_User (username : option string) (password : list byte)
    : M unit :=
  match username with
  | Some name =>
      writes (fun db =>
        {| transactions := transactions db;
           categories := categories db;
           users :=
             (users db
              ++ [User.mk (next_id (map User.id (users db))) name password])%list |})
  | None => refused
  end.

(* ================================================================= *)
(** ** Responses and request bodies *)

#[warnings="-register-all"]
Inductive json :=
| JNull
| JInt (n : Z)
| JFloat (x : float)
| JStr (s : string)
| JList (l : list json)
| JDict (l : list (string * json)).

(** The body and the status code; a handler that returns only a body
    answers 200. *)
Definition Response : Type := json * Z.

Definition message (m : string) : json := JDict [("message", JStr m)].

(** [d.get(key)] on a JSON object. *)
Definition json_field (key : string) (j : json) : option json :=
  match j with
  | JDict l =>
      match find (fun kv => String.eqb (fst kv) key) l with
      | Some kv => Some (snd kv)
      | None => None
      end
  | _ => None
  end.

(** A field of a request body as [reqparse] reads it with a declared
    type: [Absent] when the body has no such key or a value the type
    does not accept, [Null] when it has [null], which an argument lets
    through as [None] (arguments are nullable unless declared
    otherwise), [Value v] when it has a value [v] of the type. *)
Inductive field (A : Type) :=
| Absent
| Null
| Value (v : A).

Arguments Absent {A}.
Arguments Null {A}.
Arguments Value {A} v.

Module TransactionBody.
Record t := mk {
  description : field string;
  amount : field float;
  category_id : field Z;
  date : field string
}.
End TransactionBody.

Module CategoryBody.
Record t := mk { name : field string }.
End CategoryBody.

Module CredentialsBody.
Record t := mk { username : field string; password : field string }.
End CredentialsBody.

(** An argument declared [required=True]: when the body does not have
    it, [parse_args] aborts the request with 400 and the [help] text of
    the argument; otherwise its value, [None] for [null]. *)
Definition required {A} (name help : string) (v : field A) : Response + option A :=
  match v with
  | Value a => inr (Some a)
  | Null => inr None
  | Absent => inl (JDict [("message", JDict [(name, JStr help)])], 400)
  end.

Definition and_then {A B} (r : Response + A) (k : A -> Response + B) : Response + B :=
  match r with
  | inl e => inl e
  | inr a => k a
  end.

(** The parsed arguments: each is a value of its type or [None]. *)
Module TransactionArgs.
Record t := mk {
  description : option string;
  amount : option float;
  category_id : option Z;
  date : option string
}.
End TransactionArgs.

Module CategoryArgs.
Record t := mk { name : option string }.
End CategoryArgs.

Module CredentialsArgs.
Record t := mk { username : option string; password : option string }.
End CredentialsArgs.

(** Lines 41-45. *)
Definition transaction_parser (body : TransactionBody.t) : Response + TransactionArgs.t :=
  and_then (required "description" "Description is required"
              (TransactionBody.description body)) (fun description =>
  and_then (required "amount" "Amount is required"
              (TransactionBody.amount body)) (fun amount =>
  and_then (required "category_id" "Category ID is required"
              (TransactionBody.category_id body)) (fun category_id =>
  and_then (required "date" "Date is required (format: YYYY-MM-DD)"
              (TransactionBody.date body)) (fun date =>
  inr (TransactionArgs.mk description amount category_id date))))).

(** Lines 48-50 and 53-55: the two parsers declare the same arguments. *)
Definition register_parser (body : CredentialsBody.t) : Response + CredentialsArgs.t :=
  and_then (required "username" "Username is required"
              (CredentialsBody.username body)) (fun username =>
  and_then (required "password" "Password is required"
              (CredentialsBody.password body)) (fun password =>
  inr (CredentialsArgs.mk username password))).

Definition login_parser (body : CredentialsBody.t) : Response + CredentialsArgs.t :=
  and_then (required "username" "Username is required"
              (CredentialsBody.username body)) (fun username =>
  and_then (required "password" "Password is required"
              (CredentialsBody.password body)) (fun password =>
  inr (CredentialsArgs.mk username password))).

(** The parser the category handlers build (lines 147-148, 162-163). *)
Definition category_parser (body : CategoryBody.t) : Response + CategoryArgs.t :=
  and_then (required "name" "Name is required" (CategoryBody.name body)) (fun name =>
  inr (CategoryArgs.mk name)).

(** Python's truth value of an optional integer: [None] and [0] are false. *)
Definition truthy (i : option Z) : bool :=
  match i with
  | None => false
  | Some n => negb (n =? 0)
  end.

(** The integer of a path parameter; it is read only where the
    parameter is true, hence not [None]. *)
Definition int_of (i : option Z) : Z :=
  match i with
  | Some n => n
  | None => 0
  end.

(* ================================================================= *)
(** ** The libraries behind the service *)

(** bcrypt, the JWT extension and the framework, as the service uses
    them.  [hashpw] is bcrypt's hash of a password with a salt, [None]
    for a password bcrypt refuses with [ValueError] (the versions of
    the library differ on which it refuses), and [check_password_hash]
    the check of a password against a hash.
    [verify_jwt_in_request] is given the Authorization header and
    returns the answer of the extension when it refuses the request.
    [server_error] is the body Flask sends with status 500 when a
    handler raises. *)
Class Libs := {
  hashpw : list byte -> string -> option (list byte);
  check_password_hash : list byte -> string -> bool;
  create_access_token : Z -> string;
  verify_jwt_in_request : option string -> option Response;
  server_error : json
}.

(* ================================================================= *)
(** ** The resources (lines 58-219) *)

Section Resources.

Context {L : Libs}.

(** The decorator [@jwt_required()]: the handler runs only when the
    request carries a token the extension accepts. *)
Definition jwt_required (authorization : option string) (handler : M Response)
    : M Response :=
  match verify_jwt_in_request authorization with
  | Some refusal => ret refusal
  | None => handler
  end.

(** [generate_password_hash(password)] of flask_bcrypt: it raises
    [ValueError] on a password that is empty or [None], and gives any
    other to bcrypt with a fresh salt, which is an argument here. *)
Definition generate_password_hash (salt : list byte) (password : option string)
    : M (list byte) :=
  match password with
  | None => raise ValueError
  | Some EmptyString => raise ValueError
  | Some p =>
      match hashpw salt p with
      | Some pw_hash => ret pw_hash
      | None => raise ValueError
      end
  end.

(** [check_password_hash(pw_hash, password)] on the value of an
    argument: bcrypt raises [TypeError] on [None]. *)
Definition check_password (pw_hash : list byte) (password : option string) : M bool :=
  match password with
  | Some p => ret (check_password_hash pw_hash p)
  | None => raise TypeError
  end.

Definition Transaction_json (t : Transaction.t) (amount : json) : json :=
  JDict [("id", JInt (Transaction.id t));
         ("description", JStr (Transaction.description t));
         ("amount", amount);
         ("category_id", JInt (Transaction.category_id t));
         ("date", JStr (strftime (Transaction.date t)))].

(** Lines 59-80. *)
Definition TransactionResource_get (authorization : option string)
    (transaction_id : option Z) : M Response :=
  jwt_required authorization
    (if truthy transaction_id then
       transaction <- Transaction_query_get (int_of transaction_id) ;;
       match transaction with
       | Some t => ret (Transaction_json t (JFloat (Transaction.amount t)), 200)
       | None => ret (message "Transaction not found", 404)
       end
     else
       transactions <- Transaction_query_all ;;
       ret (JList (map (fun t =>
                          Transaction_json t
                            (JStr (currency (Transaction.amount t) true)))
                       transactions), 200)).

(** Lines 82-99. *)
Definition TransactionResource_post (authorization : option string)
    (body : TransactionBody.t) : M Response :=
  jwt_required authorization
    match transaction_parser body with
    | inl abort => ret abort
    | inr args =>
        let description := TransactionArgs.description args in
        let amount := TransactionArgs.amount args in
        let category_id := TransactionArgs.category_id args in
        let date_str := TransactionArgs.date args in
        match datetime_strptime date_str with
        | inl ValueError =>
            ret (message "Invalid date format. Please use YYYY-MM-DD format.", 400)
        | inl e => raise e
        | inr date =>
            session_add_Transaction description amount category_id date ;;
            session_commit ;;
            ret (message "Transaction created successfully", 201)
        end
    end.

(** Lines 101-120. *)
Definition TransactionResource_put (authorization : option string)
    (transaction_id : Z) (body : TransactionBody.t) : M Response :=
  jwt_required authorization
    (transaction <- Transaction_query_get transaction_id ;;
     match transaction with
     | None => ret (message "Transaction not found", 404)
     | Some t =>
         match transaction_parser body with
         | inl abort => ret abort
         | inr args =>
             assign_description (Transaction.id t) (TransactionArgs.description args) ;;
             assign_amount (Transaction.id t) (TransactionArgs.amount args) ;;
             assign_category_id (Transaction.id t) (TransactionArgs.category_id args) ;;
             let date_str := TransactionArgs.date args in
             match datetime_strptime date_str with
             | inl ValueError =>
                 ret (message "Invalid date format. Please use YYYY-MM-DD format.", 400)
             | inl e => raise e
             | inr date =>
                 Transaction_update (Transaction.id t) (set_date date) ;;
                 session_commit ;;
                 ret (message "Transaction updated successfully", 200)
             end
         end
     end).

(** Lines 122-130. *)
Definition TransactionResource_delete (authorization : option string)
    (transaction_id : Z) : M Response :=
  jwt_required authorization
    (transaction <- Transaction_query_get transaction_id ;;
     match transaction with
     | None => ret (message "Transaction not found", 404)
     | Some t =>
         session_delete_Transaction (Transaction.id t) ;;
         session_commit ;;
         ret (message "Transaction deleted successfully", 200)
     end).

Definition Category_json (c : Category.t) : json :=
  JDict [("id", JInt (Category.id c)); ("name", JStr (Category.name c))].

(** Lines 134-143. *)
Definition CategoryResource_get (authorization : option string)
    (category_id : option Z) : M Response :=
  jwt_required authorization
    (if truthy category_id then
       category <- Category_query_get (int_of category_id) ;;
       match category with
       | Some c => ret (Category_json c, 200)
       | None => ret (message "Category not found", 404)
       end
     else
       categories <- Category_query_all ;;
       ret (JList (map Category_json categories), 200)).

(** Lines 145-154. *)
Definition CategoryResource_post (authorization : option string)
    (body : CategoryBody.t) : M Response :=
  jwt_required authorization
    match category_parser body with
    | inl abort => ret abort
    | inr args =>
        session_add_Category (CategoryArgs.name args) ;;
        session_commit ;;
        ret (message "Category created successfully", 201)
    end.

(** Lines 156-168. *)
Definition CategoryResource_put (authorization : option string)
    (category_id : Z) (body : CategoryBody.t) : M Response :=
  jwt_required authorization
    (category <- Category_query_get category_id ;;
     match category with
     | None => ret (message "Category not found", 404)
     | Some c =>
         match category_parser body with
         | inl abort => ret abort
         | inr args =>
             assign_name (Category.id c) (CategoryArgs.name args) ;;
             session_commit ;;
             ret (message "Category updated successfully", 200)
         end
     end).

(** Lines 170-178. *)
Definition CategoryResource_delete (authorization : option string)
    (category_id : Z) : M Response :=
  jwt_required authorization
    (category <- Category_query_get category_id ;;
     match category with
     | None => ret (message "Category not found", 404)
     | Some c =>
         session_delete_Category (Category.id c) ;;
         session_commit ;;
         ret (message "Category deleted successfully", 200)
     end).

(** Lines 181-198; [salt] is the salt bcrypt draws. *)
Definition RegisterResource_post (salt : list byte) (body : CredentialsBody.t)
    : M Response :=
  match register_parser body with
  | inl abort => ret abort
  | inr args =>
      let username := CredentialsArgs.username args in
      let password := CredentialsArgs.password args in
      existing_user <- User_query_filter_by_username_first username ;;
      match existing_user with
      | Some _ => ret (message "Username already exists", 400)
      | None =>
          hashed_password <- generate_password_hash salt password ;;
          session_add_User username hashed_password ;;
          session_commit ;;
          ret (message "User registered successfully", 201)
      end
  end.

(** Lines 201-219. *)
Definition LoginResource_post (body : CredentialsBody.t) : M Response :=
  match login_parser body with
  | inl abort => ret abort
  | inr args =>
      let username := CredentialsArgs.username args in
      let password := CredentialsArgs.password args in
      user <- User_query_filter_by_username_first username ;;
      match user with
      | None => ret (message "Invalid username or password", 401)
      | Some u =>
          verified <- check_password (User.password u) password ;;
          if negb verified
          then ret (message "Invalid username or password", 401)
          else
            let access_token := create_access_token (User.id u) in
            ret (JDict [("access_token", JStr access_token)], 200)
      end
  end.

(** *** Requests and the life of a request *)

(** The routes of lines 221-224 with the verbs their resources define. *)
Inductive Request :=
| GET_transactions (authorization : option string) (transaction_id : option Z)
| POST_transactions (authorization : option string) (body : TransactionBody.t)
| PUT_transactions (authorization : option string) (transaction_id : Z)
    (body : TransactionBody.t)
| DELETE_transactions (authorization : option string) (transaction_id : Z)
| GET_categories (authorization : option string) (category_id : option Z)
| POST_categories (authorization : option string) (body : CategoryBody.t)
| PUT_categories (authorization : option string) (category_id : Z)
    (body : CategoryBody.t)
| DELETE_categories (authorization : option string) (category_id : Z)
| POST_register (salt : list byte) (body : CredentialsBody.t)
| POST_login (body : CredentialsBody.t).

Definition dispatch (req : Request) : M Response :=
  match req with
  | GET_transactions a i => TransactionResource_get a i
  | POST_transactions a b => TransactionResource_post a b
  | PUT_transactions a i b => TransactionResource_put a i b
  | DELETE_transactions a i => TransactionResource_delete a i
  | GET_categories a i => CategoryResource_get a i
  | POST_categories a b => CategoryResource_post a b
  | PUT_categories a i b => CategoryResource_put a i b
  | DELETE_categories a i => CategoryResource_delete a i
  | POST_register salt b => RegisterResource_post salt b
  | POST_login b => LoginResource_post b
  end.

(** One HTTP call: a fresh session over the database, the handler, and
    the removal of the session, which keeps what was committed.  What
    the handler returns is the answer; when it raises, the answer has
    status 500. *)
Definition serve (db : DB) (req : Request) : Response * DB :=
  let (result, s) :=
    dispatch req {| committed := db; pending := db; unflushable := false |} in
  (match result with
   | inr response => response
   | inl _ => (server_error, 500)
   end, committed s).

Definition response (db : DB) (req : Request) : Response := fst (serve db req).
Definition after (db : DB) (req : Request) : DB := snd (serve db req).

(** The database after a sequence of calls, and the states the service
    reaches from the empty database. *)
Definition run (db : DB) (reqs : list Request) : DB := fold_left after reqs db.

Definition reachable (db : DB) : Prop := exists reqs, db = run empty_db reqs.

Definition is_category_request (req : Request) : bool :=
  match req with
  | GET_categories _ _ | POST_categories _ _
  | PUT_categories _ _ _ | DELETE_categories _ _ => true
  | _ => false
  end.

End Resources.

(* ================================================================= *)
(** ** States of the store and runs of the service *)

(** Keys of a table: no key twice, every key at least 1. *)
Definition wf_ids (ids : list Z) : Prop :=
  NoDup ids /\ Forall (fun i => 1 <= i) ids.

Definition wf_db (db : DB) : Prop :=
  wf_ids (map Transaction.id (transactions db))
  /\ wf_ids (map Category.id (categories db))
  /\ wf_ids (map User.id (users db))
  /\ NoDup (map User.username (users db)).

(** The row a successful [POST /transactions] inserts. *)
Definition created (db : DB) (description : string) (amount : float)
    (category_id : Z) (date : Date.t) : Transaction.t :=
  Transaction.mk (next_id (map Transaction.id (transactions db)))
    description (sqlite_real amount) category_id date.

Definition with_transactions (db : DB) (l : list Transaction.t) : DB :=
  {| transactions := l; categories := categories db; users := users db |}.

Definition with_categories (db : DB) (l : list Category.t) : DB :=
  {| transactions := transactions db; categories := l; users := users db |}.

Definition with_users (db : DB) (l : list User.t) : DB :=
  {| transactions := transactions db; categories := categories db; users := l |}.

(** The names the category bodies of a run carry. *)
Definition supplied_name (req : Request) : list string :=
  match req with
  | POST_categories _ (CategoryBody.mk (Value n)) => [n]
  | PUT_categories _ _ (CategoryBody.mk (Value n)) => [n]
  | _ => []
  end.

Definition supplied_names (reqs : list Request) : list string :=
  flat_map supplied_name reqs.

(** States reached through the Category endpoints alone. *)
Definition category_reachable {L : Libs} (db : DB) : Prop :=
  exists reqs, forallb is_category_request reqs = true /\ db = run empty_db reqs.

(** The Authorization header of a request to a route whose handler is
    decorated with [@jwt_required()]; [None] for register and login. *)
Definition authorization_of (req : Request) : option (option string) :=
  match req with
  | GET_transactions a _ | POST_transactions a _
  | PUT_transactions a _ _ | DELETE_transactions a _
  | GET_categories a _ | POST_categories a _
  | PUT_categories a _ _ | DELETE_categories a _ => Some a
  | POST_register _ _ | POST_login _ => None
  end.

Definition is_transaction_request (req : Request) : bool :=
  match req with
  | GET_transactions _ _ | POST_transactions _ _
  | PUT_transactions _ _ _ | DELETE_transactions _ _ => true
  | _ => false
  end.

Definition is_account_request (req : Request) : bool :=
  match req with
  | POST_register _ _ | POST_login _ => true
  | _ => false
  end.

(** Every stored row holds what the store takes: a day of the calendar,
    an amount that is a number and no negative zero, a category id of
    64 bits. *)
Definition row_ok (t : Transaction.t) : Prop :=
  date_ok (Date.year (Transaction.date t)) (Date.month (Transaction.date t))
    (Date.day (Transaction.date t)) = true
  /\ PrimFloat.is_nan (Transaction.amount t) = false
  /\ sqlite_real (Transaction.amount t) = Transaction.amount t
  /\ int64 (Transaction.category_id t) = true.

Definition rows_ok (db : DB) : Prop := Forall row_ok (transactions db).

(** A body that lacks one of its four fields, and a body with a null. *)
Definition is_absent {A} (v : field A) : bool :=
  match v with Absent => true | _ => false end.

Definition is_null {A} (v : field A) : bool :=
  match v with Null => true | _ => false end.

Definition lacks_field (body : TransactionBody.t) : bool :=
  is_absent (TransactionBody.description body)
  || is_absent (TransactionBody.amount body)
  || is_absent (TransactionBody.category_id body)
  || is_absent (TransactionBody.date body).

Definition has_null (body : TransactionBody.t) : bool :=
  is_null (TransactionBody.description body)
  || is_null (TransactionBody.amount body)
  || is_null (TransactionBody.category_id body)
  || is_null (TransactionBody.date body).

(** The body that sends a stored transaction back as
    GET /transactions/{id} shows it. *)
Definition body_of (t : Transaction.t) : TransactionBody.t :=
  TransactionBody.mk (Value (Transaction.description t))
    (Value (Transaction.amount t)) (Value (Transaction.category_id t))
    (Value (strftime (Transaction.date t))).

(** A stand-in for the libraries, to run the service on examples: the
    hash is the salt followed by the reversed password, and the one
    accepted header is ["Bearer t"]. *)
Definition example_libs : Libs := {|
  hashpw := fun salt password =>
    Some (salt ++ rev (list_byte_of_string password))%list;
  check_password_hash := fun pw_hash password =>
    let p := rev (list_byte_of_string password) in
    String.eqb (string_of_list_byte (skipn (List.length pw_hash - List.length p) pw_hash))
               (string_of_list_byte p);
  create_access_token := fun identity => "token-" ++ str_of_Z identity;
  verify_jwt_in_request := fun authorization =>
    match authorization with
    | Some h => if String.eqb h "Bearer t" then None
                else Some (JDict [("msg", JStr "Not enough segments")], 422)
    | None => Some (JDict [("msg", JStr "Missing Authorization Header")], 401)
    end;
  server_error := message "Internal Server Error"
|}.

(** A run on the stand-in libraries: a user registers, a category and a
    transaction are created. *)
Definition example_auth : option string := Some "Bearer t".

Definition alice : CredentialsBody.t :=
  CredentialsBody.mk (Value "alice") (Value "secret").

Definition lunch : TransactionBody.t :=
  TransactionBody.mk (Value "Lunch") (Value 15000%float) (Value 1) (Value "2024-02-29").

Definition lunch_row : Transaction.t :=
  Transaction.mk 1 "Lunch" 15000%float 1 (Date.mk 2024 2 29).

Definition example_requests : list Request :=
  [POST_register [x01] alice;
   POST_categories example_auth (CategoryBody.mk (Value "Food"));
   POST_transactions example_auth lunch].

Definition example_db : DB := run (L := example_libs) empty_db example_requests.

(** What the stand-in extension answers to a request without a header. *)
Definition missing_header : Response :=
  (JDict [("msg", JStr "Missing Authorization Header")], 401).

(* ################################################################# *)
(** * Properties *)

Example example_db_rows :
  example_db
  = {| transactions := [lunch_row];
       categories := [Category.mk 1 "Food"];
       users := [User.mk 1 "alice" [x01; x74; x65; x72; x63; x65; x73]] |}.
Proof. reflexivity. Qed.

Example strptime_leap_day : strptime "2024-02-29" = Some (Date.mk 2024 2 29).
Proof. reflexivity. Qed.
Example strftime_987 : strftime (Date.mk 987 1 5) = "987-01-05".
Proof. reflexivity. Qed.
Example strftime_2024 : strftime (Date.mk 2024 1 5) = "2024-01-05".
Proof. reflexivity. Qed.
Example currency_15000 : currency 15000%float true = "Rp15.000,00".
Proof. vm_compute. reflexivity. Qed.
Example rupiah_15000 : rupiah false 1500000 = "Rp15.000,00".
Proof. vm_compute. reflexivity. Qed.

(* ================================================================= *)
(** ** Dates *)

Example strptime_invalid_month : strptime "2024-13-01" = None.
Proof. reflexivity. Qed.

Example strptime_no_leap_day : strptime "2023-02-29" = None.
Proof. reflexivity. Qed.

Example strptime_unpadded : strptime "2024-1-5" = Some (Date.mk 2024 1 5).
Proof. reflexivity. Qed.

Example strptime_blank_day : strptime "2024-01- 7" = Some (Date.mk 2024 1 7).
Proof. reflexivity. Qed.

Example strptime_unconverted : strptime "2024-01-011" = None.
Proof. reflexivity. Qed.

Example strptime_year_zero : strptime "0000-01-01" = None.
Proof. reflexivity. Qed.

Example strptime_short_year : strptime "987-01-05" = None.
Proof. reflexivity. Qed.

Lemma is_digit_inv (c : ascii) :
  is_digit c = true ->
  exists v, 0 <= v <= 9 /\ c = digit_char v /\ digit_val c = v.
Proof.
  intros H. exists (digit_val c).
  destruct c as [[] [] [] [] [] [] [] []]; try discriminate H;
    vm_compute; repeat split; congruence.
Qed.

Lemma digit_cases (v : Z) :
  0 <= v <= 9 ->
  v = 0 \/ v = 1 \/ v = 2 \/ v = 3 \/ v = 4 \/ v = 5 \/ v = 6 \/ v = 7 \/ v = 8 \/ v = 9.
Proof. lia. Qed.

(** Enumerates the ten values of a digit. *)
Ltac digits_in H :=
  destruct (digit_cases _ H)
    as [-> | [-> | [-> | [-> | [-> | [-> | [-> | [-> | [-> | ->]]]]]]]]].

Lemma digit_char_is_digit (v : Z) : 0 <= v <= 9 -> is_digit (digit_char v) = true.
Proof.
  intros H. digits_in H; reflexivity.
Qed.

Lemma digit_val_char (v : Z) : 0 <= v <= 9 -> digit_val (digit_char v) = v.
Proof.
  intros H. digits_in H; reflexivity.
Qed.

Lemma int_digit_first (v : Z) (r : string) :
  0 <= v <= 9 -> int (String (digit_char v) r) = int_digits v r.
Proof.
  intros H. digits_in H; reflexivity.
Qed.

Lemma re_m_two_digits {A} (a b : Z) (r : string)
    (k : string -> string -> option A) (x : A) :
  0 <= a <= 9 -> 0 <= b <= 9 -> 1 <= 10 * a + b <= 12 ->
  k (String (digit_char a) (String (digit_char b) "")) r = Some x ->
  re_m (String (digit_char a) (String (digit_char b) r)) k = Some x.
Proof.
  intros Ha Hb Hm Hk. digits_in Ha; try lia; digits_in Hb; try lia;
    unfold re_m, re_two, re_one; cbn in Hk |- *; rewrite ?Hk; reflexivity.
Qed.

Lemma re_d_two_digits {A} (a b : Z) (r : string)
    (k : string -> string -> option A) (x : A) :
  0 <= a <= 9 -> 0 <= b <= 9 -> 1 <= 10 * a + b <= 31 ->
  k (String (digit_char a) (String (digit_char b) "")) r = Some x ->
  re_d (String (digit_char a) (String (digit_char b) r)) k = Some x.
Proof.
  intros Ha Hb Hm Hk. digits_in Ha; try lia; digits_in Hb; try lia;
    unfold re_d, re_two, re_one; cbn in Hk |- *; rewrite ?Hk; reflexivity.
Qed.

Lemma date_ok_bounds (y m d : Z) :
  date_ok y m d = true -> 1 <= y <= 9999 /\ 1 <= m <= 12 /\ 1 <= d <= 31.
Proof.
  unfold date_ok, days_in_month. intros H.
  repeat (apply andb_prop in H; destruct H as [H ?]).
  destruct (m =? 2); [destruct (isleap y) |];
    try destruct ((m =? 4) || (m =? 6) || (m =? 9) || (m =? 11)); lia.
Qed.

Lemma pad2_digits (a b : Z) :
  0 <= a <= 9 -> 0 <= b <= 9 ->
  pad2 (10 * a + b) = String (digit_char a) (String (digit_char b) "").
Proof.
  intros Ha Hb. unfold pad2.
  replace ((10 * a + b) / 10 mod 10) with a
    by (digits_in Ha; digits_in Hb; reflexivity).
  replace ((10 * a + b) mod 10) with b
    by (digits_in Ha; digits_in Hb; reflexivity).
  reflexivity.
Qed.

Lemma pad4_digits (a b c d : Z) :
  0 <= a <= 9 -> 0 <= b <= 9 -> 0 <= c <= 9 -> 0 <= d <= 9 ->
  pad4 (1000 * a + 100 * b + 10 * c + d)
  = String (digit_char a) (String (digit_char b)
      (String (digit_char c) (String (digit_char d) ""))).
Proof.
  intros Ha Hb Hc Hd. unfold pad4.
  replace (1000 * a + 100 * b + 10 * c + d)
    with (10 * (100 * a + 10 * b + c) + d) at 3 by ring.
  assert (H1 : (1000 * a + 100 * b + 10 * c + d) / 1000 mod 10 = a).
  { replace (1000 * a + 100 * b + 10 * c + d)
      with (a * 1000 + (100 * b + 10 * c + d)) by ring.
    rewrite Z.div_add_l by lia. rewrite (Z.div_small (100 * b + 10 * c + d)) by lia.
    rewrite Z.add_0_r. apply Z.mod_small. lia. }
  assert (H2 : (1000 * a + 100 * b + 10 * c + d) / 100 mod 10 = b).
  { replace (1000 * a + 100 * b + 10 * c + d)
      with ((10 * a + b) * 100 + (10 * c + d)) by ring.
    rewrite Z.div_add_l by lia. rewrite (Z.div_small (10 * c + d)) by lia.
    rewrite Z.add_0_r. replace (10 * a + b) with (b + a * 10) by ring.
    rewrite Z.mod_add by lia. apply Z.mod_small. lia. }
  rewrite H1, H2. f_equal. f_equal.
  unfold pad2.
  assert (H3 : (10 * (100 * a + 10 * b + c) + d) / 10 mod 10 = c).
  { replace (10 * (100 * a + 10 * b + c) + d)
      with ((100 * a + 10 * b + c) * 10 + d) by ring.
    rewrite Z.div_add_l by lia. rewrite (Z.div_small d) by lia.
    rewrite Z.add_0_r. replace (100 * a + 10 * b + c) with (c + (10 * a + b) * 10) by ring.
    rewrite Z.mod_add by lia. apply Z.mod_small. lia. }
  assert (H4 : (10 * (100 * a + 10 * b + c) + d) mod 10 = d).
  { replace (10 * (100 * a + 10 * b + c) + d)
      with (d + (100 * a + 10 * b + c) * 10) by ring.
    rewrite Z.mod_add by lia. apply Z.mod_small. lia. }
  rewrite H3, H4. reflexivity.
Qed.

(** What [strptime] accepts is a day of the calendar. *)
Lemma strptime_date_ok (s : string) (d : Date.t) :
  strptime s = Some d ->
  date_ok (Date.year d) (Date.month d) (Date.day d) = true.
Proof.
  unfold strptime, datetime_date. intros H.
  destruct (format_regex_match s) as [[[[Y m] dd] rest] |]; [| discriminate].
  destruct rest; [| discriminate].
  destruct (date_ok (int Y) (int m) (int dd)) eqn:E; [| discriminate].
  injection H as <-. exact E.
Qed.

(** A text in the strict form is accepted, as the date its digits name;
    that date in ten characters is the text. *)
Lemma strptime_strict (s : string) :
  is_YYYY_MM_DD s = true ->
  exists d, strptime s = Some d /\ iso d = s.
Proof.
  intros H.
  do 10 (destruct s as [| ? s]; [discriminate H |]).
  destruct s; [| discriminate H].
  cbn [is_YYYY_MM_DD] in H.
  repeat match goal with
         | E : (_ && _) = true |- _ => apply andb_prop in E; destruct E
         end.
  repeat match goal with
         | E : Ascii.eqb _ _ = true |- _ => apply Ascii.eqb_eq in E; subst
         | E : is_digit _ = true |- _ =>
             apply is_digit_inv in E; destruct E as (? & ? & -> & ?)
         end.
  repeat match goal with
         | E : digit_val (digit_char ?v) = _ |- _ => clear E
         end.
  rewrite !digit_val_char in * by assumption.
  match goal with E : date_ok ?y ?m ?d = true |- _ =>
    exists (Date.mk y m d); pose proof (date_ok_bounds _ _ _ E) as (By & Bm & Bd)
  end.
  split.
  - unfold strptime, format_regex_match, re_Y.
    rewrite !digit_char_is_digit by assumption. cbn [andb re_lit].
    change (Ascii.eqb "-" "-") with true. cbv iota.
    erewrite re_m_two_digits; try eassumption; [| cbn [re_lit]].
    2:{ change (Ascii.eqb "-" "-") with true. cbv iota.
        eapply re_d_two_digits; try eassumption. reflexivity. }
    cbv beta iota.
    rewrite !int_digit_first by assumption. cbn [int_digits].
    rewrite !digit_val_char by assumption.
    unfold datetime_date.
    match goal with E : date_ok ?y ?m ?d = true |- _ =>
      match goal with |- context [date_ok ?y' ?m' ?d'] =>
        replace y' with y by ring; replace m' with m by ring;
        replace d' with d by ring; rewrite E
      end
    end.
    reflexivity.
  - unfold iso; cbn [Date.year Date.month Date.day].
    rewrite pad4_digits, !pad2_digits by assumption. reflexivity.
Qed.

(** Checks a property of the integers from [lo] up to [lo + n] by
    running it on each of them. *)
Lemma range_check (P : Z -> bool) (lo n : Z) :
  forallb (fun k => P (lo + Z.of_nat k)) (seq 0 (Z.to_nat n)) = true ->
  forall z, lo <= z < lo + n -> P z = true.
Proof.
  intros H z Hz. rewrite forallb_forall in H.
  specialize (H (Z.to_nat (z - lo))).
  replace (lo + Z.of_nat (Z.to_nat (z - lo))) with z in H by lia.
  apply H. apply in_seq. lia.
Qed.

(** From the year 1000 on the year is printed in four digits. *)
Lemma year_four_digits (y : Z) : 1000 <= y <= 9999 -> str_of_Z y = pad4 y.
Proof.
  intros H. apply String.eqb_eq.
  apply (range_check (fun y => String.eqb (str_of_Z y) (pad4 y)) 1000 9000);
    [vm_compute; reflexivity | lia].
Qed.

Lemma strftime_iso (d : Date.t) :
  1000 <= Date.year d <= 9999 -> strftime d = iso d.
Proof. intros H. unfold strftime, iso. now rewrite year_four_digits. Qed.

Lemma digit_mod (n : Z) : 0 <= n mod 10 <= 9.
Proof. pose proof (Z.mod_pos_bound n 10). lia. Qed.

Lemma digit_char_zero (v : Z) : 0 <= v <= 9 -> digit_char v = "0"%char -> v = 0.
Proof. intros H E. digits_in H; try reflexivity; discriminate E. Qed.

(** A text in the strict form whose first digit is not 0 is the text
    [strftime] makes of the date it names. *)
Lemma strptime_strftime_text (s : string) :
  is_YYYY_MM_DD s = true -> year_from_1000 s = true ->
  exists d, strptime s = Some d /\ strftime d = s.
Proof.
  intros Hs Hy. destruct (strptime_strict s Hs) as (d & Hp & Hi).
  exists d. split; [exact Hp |]. rewrite strftime_iso; [exact Hi |].
  pose proof (strptime_date_ok _ _ Hp) as Hok.
  apply date_ok_bounds in Hok as (By & _).
  split; [| lia].
  rewrite <- Hi in Hy. unfold iso, pad4 in Hy. cbn [append year_from_1000] in Hy.
  destruct (Z_lt_le_dec (Date.year d) 1000) as [Hlt | Hge]; [| exact Hge].
  exfalso. replace (Date.year d / 1000 mod 10) with 0 in Hy
    by (Z.div_mod_to_equations; lia).
  discriminate Hy.
Qed.

Lemma year_digits (y : Z) :
  0 <= y <= 9999 ->
  1000 * (y / 1000 mod 10) + 100 * (y / 100 mod 10) + 10 * (y / 10 mod 10) + y mod 10 = y.
Proof. intros H. Z.div_mod_to_equations. lia. Qed.

Lemma two_digits (n : Z) :
  0 <= n <= 99 -> 10 * (n / 10 mod 10) + n mod 10 = n.
Proof. intros H. Z.div_mod_to_equations. lia. Qed.

(** The text of a day of the calendar in ten characters is in the strict
    form and [strptime] reads it back as that day. *)
Lemma strptime_iso (d : Date.t) :
  date_ok (Date.year d) (Date.month d) (Date.day d) = true ->
  is_YYYY_MM_DD (iso d) = true /\ strptime (iso d) = Some d.
Proof.
  destruct d as [y m dd]. cbn [Date.year Date.month Date.day]. intros Hok.
  pose proof (date_ok_bounds _ _ _ Hok) as (By & Bm & Bd).
  assert (Hs : is_YYYY_MM_DD (iso (Date.mk y m dd)) = true).
  { unfold iso, pad4, pad2. cbn [Date.year Date.month Date.day append].
    cbn [is_YYYY_MM_DD].
    rewrite !digit_char_is_digit by apply digit_mod.
    rewrite !digit_val_char by apply digit_mod.
    rewrite year_digits, !two_digits by lia. rewrite Hok. reflexivity. }
  split; [exact Hs |].
  destruct (strptime_strict _ Hs) as (d' & Hp & Hf).
  rewrite Hp. f_equal.
  pose proof (strptime_date_ok _ _ Hp) as Hok'.
  destruct d' as [y' m' dd']. cbn [Date.year Date.month Date.day] in Hok'.
  pose proof (date_ok_bounds _ _ _ Hok') as (By' & Bm' & Bd').
  unfold iso, pad4, pad2 in Hf. cbn [Date.year Date.month Date.day append] in Hf.
  injection Hf as E1 E2 E3 E4 E5 E6 E7 E8.
  repeat match goal with
         | E : digit_char ?u = digit_char ?v |- _ =>
             apply (f_equal digit_val) in E;
             rewrite !digit_val_char in E by apply digit_mod
         end.
  rewrite <- (year_digits y), <- (year_digits y') by lia.
  rewrite <- (two_digits m), <- (two_digits m'), <- (two_digits dd), <- (two_digits dd')
    by lia.
  congruence.
Qed.

Lemma re_Y_short {A} (t r : string) (k : string -> string -> option A) :
  (String.length t <= 3)%nat -> re_Y (t ++ "-" ++ r) k = None.
Proof.
  intros Ht. unfold re_Y.
  destruct t as [| a [| b [| c [| e t]]]]; cbn [append];
    [ | | | | cbn in Ht; lia ];
    repeat match goal with
           | |- context [match ?x with EmptyString => _ | String _ _ => _ end] =>
               destruct x
           end; try reflexivity;
    repeat match goal with
           | |- context [is_digit ?c] => destruct (is_digit c) eqn:?; cbn [andb]
           end; try reflexivity; discriminate.
Qed.

(** The text of a year below 1000 has fewer than four digits, and
    [strptime] refuses the text [strftime] makes of such a date. *)
Lemma strptime_short_year_text (d : Date.t) :
  1 <= Date.year d < 1000 -> strptime (strftime d) = None.
Proof.
  intros Hy.
  assert (H : (String.length (str_of_Z (Date.year d)) <=? 3)%nat = true).
  { apply (range_check (fun y => (String.length (str_of_Z y) <=? 3)%nat) 1 999);
      [vm_compute; reflexivity | lia]. }
  apply Nat.leb_le in H.
  unfold strptime, format_regex_match, strftime.
  now rewrite re_Y_short.
Qed.

(* ================================================================= *)
(** ** Keys *)

Lemma fold_max_ge (l : list Z) (a : Z) : a <= fold_left Z.max l a.
Proof.
  revert a. induction l as [| x l IH]; intros a; cbn; [lia |].
  specialize (IH (Z.max a x)). lia.
Qed.

Lemma fold_max_in (l : list Z) (a x : Z) : In x l -> x <= fold_left Z.max l a.
Proof.
  revert a. induction l as [| y l IH]; intros a; cbn; [tauto |].
  intros [-> | H]; [| now apply IH].
  pose proof (fold_max_ge l (Z.max a x)). lia.
Qed.

(** The next rowid is above every rowid of the table. *)
Lemma next_id_above (ids : list Z) (i : Z) : In i ids -> i < next_id ids.
Proof.
  destruct ids as [| a l]; cbn [next_id]; [intros [] |].
  intros [<- | H].
  - pose proof (fold_max_ge l a). lia.
  - pose proof (fold_max_in l a i H). lia.
Qed.

Lemma next_id_positive (ids : list Z) : Forall (fun i => 1 <= i) ids -> 1 <= next_id ids.
Proof.
  destruct ids as [| a l]; cbn [next_id]; [lia |].
  intros H. inversion H; subst. pose proof (fold_max_ge l a). lia.
Qed.

Lemma next_id_fresh (ids : list Z) : ~ In (next_id ids) ids.
Proof. intros H. apply next_id_above in H. lia. Qed.

Lemma wf_ids_snoc (ids : list Z) : wf_ids ids -> wf_ids (ids ++ [next_id ids]).
Proof.
  intros [Hn Hp]. split.
  - apply NoDup_app; [exact Hn | repeat constructor; intros [] | ].
    intros i Hi [<- | []]. now apply next_id_fresh in Hi.
  - apply Forall_app. split; [exact Hp |].
    constructor; [now apply next_id_positive | constructor].
Qed.

(** Removing rows keeps the keys of a table sound. *)
Lemma wf_ids_filter {A} (key : A -> Z) (keep : A -> bool) (rows : list A) :
  wf_ids (map key rows) -> wf_ids (map key (filter keep rows)).
Proof.
  unfold wf_ids. induction rows as [| r rows IH]; cbn; [tauto |].
  intros [Hn Hp]. inversion Hn as [| ? ? Hfresh Hn']; subst.
  inversion Hp as [| ? ? Hr Hp']; subst.
  destruct (IH (conj Hn' Hp')) as [IHn IHp].
  destruct (keep r); cbn; [| tauto].
  split; constructor; try assumption.
  intros Hin. apply Hfresh. apply in_map_iff in Hin as (x & Hx & Hf).
  apply filter_In in Hf as [Hf _]. apply in_map_iff. eauto.
Qed.

Lemma map_key_update {A} (key : A -> Z) (f : A -> A) (i : Z) (l : list A) :
  (forall a, key (f a) = key a) ->
  map key (map (fun a => if key a =? i then f a else a) l) = map key l.
Proof.
  intros Hf. rewrite map_map. apply map_ext. intros a.
  destruct (key a =? i); [apply Hf | reflexivity].
Qed.

(** Looking a key up in a table. *)
Lemma find_snoc_fresh {A} (key : A -> Z) (l : list A) (x : A) :
  ~ In (key x) (map key l) ->
  find (fun a => key a =? key x) (l ++ [x]) = Some x.
Proof.
  induction l as [| a l IH]; cbn; intros H.
  - now rewrite Z.eqb_refl.
  - destruct (key a =? key x) eqn:E; [apply Z.eqb_eq in E; tauto |].
    apply IH. tauto.
Qed.

Lemma find_key_unique {A} (key : A -> Z) (l : list A) (x : A) :
  NoDup (map key l) -> In x l ->
  find (fun a => key a =? key x) l = Some x.
Proof.
  induction l as [| a l IH]; cbn; [tauto |].
  intros Hn [-> | Hin].
  - now rewrite Z.eqb_refl.
  - inversion Hn as [| ? ? Hni Hn']; subst.
    destruct (key a =? key x) eqn:E; [| now apply IH].
    apply Z.eqb_eq in E. exfalso. apply Hni. rewrite E. now apply in_map.
Qed.

Lemma find_key_some {A} (key : A -> Z) (l : list A) (i : Z) (x : A) :
  find (fun a => key a =? i) l = Some x -> key x = i /\ In x l.
Proof.
  intros H. apply find_some in H as [Hin E]. apply Z.eqb_eq in E. tauto.
Qed.

Lemma find_filter_out {A} (key : A -> Z) (l : list A) (i : Z) :
  find (fun a => key a =? i) (filter (fun a => negb (key a =? i)) l) = None.
Proof.
  induction l as [| a l IH]; cbn; [reflexivity |].
  destruct (key a =? i) eqn:E; cbn; [exact IH | now rewrite E].
Qed.

Lemma find_filter_other {A} (key : A -> Z) (l : list A) (i j : Z) :
  j <> i ->
  find (fun a => key a =? j) (filter (fun a => negb (key a =? i)) l)
  = find (fun a => key a =? j) l.
Proof.
  intros Hji. induction l as [| a l IH]; cbn; [reflexivity |].
  destruct (key a =? i) eqn:E; cbn.
  - apply Z.eqb_eq in E. destruct (key a =? j) eqn:E'; [| exact IH].
    apply Z.eqb_eq in E'. congruence.
  - destruct (key a =? j); [reflexivity | exact IH].
Qed.

Lemma find_update_same {A} (key : A -> Z) (f : A -> A) (l : list A) (i : Z) (x : A) :
  (forall a, key (f a) = key a) ->
  find (fun a => key a =? i) l = Some x ->
  find (fun a => key a =? i) (map (fun a => if key a =? i then f a else a) l)
  = Some (f x).
Proof.
  intros Hf. induction l as [| a l IH]; cbn; [discriminate |].
  destruct (key a =? i) eqn:E.
  - intros [= ->]. now rewrite Hf, E.
  - rewrite E. exact IH.
Qed.

Lemma find_update_other {A} (key : A -> Z) (f : A -> A) (l : list A) (i j : Z) :
  (forall a, key (f a) = key a) -> j <> i ->
  find (fun a => key a =? j) (map (fun a => if key a =? i then f a else a) l)
  = find (fun a => key a =? j) l.
Proof.
  intros Hf Hji. induction l as [| a l IH]; cbn; [reflexivity |].
  destruct (key a =? i) eqn:E.
  - apply Z.eqb_eq in E. rewrite Hf.
    destruct (key a =? j) eqn:E'; [apply Z.eqb_eq in E'; congruence | exact IH].
  - destruct (key a =? j); [reflexivity | exact IH].
Qed.


(* ================================================================= *)
(** ** Numerals and the currency text *)

Lemma string_app_assoc (a b c : string) : (a ++ b) ++ c = a ++ b ++ c.
Proof. induction a as [| x a IH]; cbn; [reflexivity | now rewrite IH]. Qed.

Lemma string_app_nil_r (a : string) : a ++ "" = a.
Proof. induction a as [| x a IH]; cbn; [reflexivity | now rewrite IH]. Qed.

Lemma string_length_app (s t : string) :
  String.length (s ++ t) = (String.length s + String.length t)%nat.
Proof. induction s as [| x s IH]; cbn; [reflexivity | now rewrite IH]. Qed.

Lemma decimal_S (f : nat) (n : Z) :
  decimal (S f) n
  = (if n <? 10 then "" else decimal f (n / 10)) ++ String (digit_char (n mod 10)) "".
Proof. reflexivity. Qed.

Lemma pow2_S (f : nat) : 2 ^ Z.of_nat (S f) = 2 * 2 ^ Z.of_nat f.
Proof. rewrite Nat2Z.inj_succ, Z.pow_succ_r by lia. reflexivity. Qed.

Lemma tenth_bound (n p : Z) : 0 <= n < 2 * p -> 0 <= n / 10 < p.
Proof. intros H. Z.div_mod_to_equations. lia. Qed.

(** The numeral does not depend on the bound of its length, once the
    bound is enough. *)
Lemma decimal_fuel (f1 : nat) :
  forall f2 n,
    0 <= n < 2 ^ Z.of_nat (S f1) -> 0 <= n < 2 ^ Z.of_nat (S f2) ->
    decimal (S f1) n = decimal (S f2) n.
Proof.
  induction f1 as [| f1 IH]; intros f2 n H1 H2; rewrite (decimal_S _ n), (decimal_S f2 n);
    destruct (n <? 10) eqn:E; try reflexivity; apply Z.ltb_ge in E.
  - change (2 ^ Z.of_nat 1) with 2 in H1. lia.
  - f_equal. destruct f2 as [| f2].
    + change (2 ^ Z.of_nat 1) with 2 in H2. lia.
    + rewrite pow2_S in H1, H2. apply IH; now apply tenth_bound.
Qed.

Lemma log2_bound (n : Z) : 0 <= n -> n < 2 ^ Z.of_nat (S (Z.to_nat (Z.log2 n))).
Proof.
  intros H. rewrite Nat2Z.inj_succ, Z2Nat.id by apply Z.log2_nonneg.
  destruct (Z.eq_dec n 0) as [-> | N]; [reflexivity |].
  apply Z.log2_spec. lia.
Qed.

Lemma str_of_Z_fuel (f : nat) (n : Z) :
  0 <= n < 2 ^ Z.of_nat (S f) -> str_of_Z n = decimal (S f) n.
Proof.
  intros H. unfold str_of_Z. apply decimal_fuel; [| exact H].
  split; [lia | apply log2_bound; lia].
Qed.

Lemma str_of_Z_digit (n : Z) : 0 <= n < 10 -> str_of_Z n = String (digit_char n) "".
Proof.
  intros H. unfold str_of_Z. rewrite decimal_S.
  destruct (n <? 10) eqn:E; [| apply Z.ltb_ge in E; lia].
  rewrite Z.mod_small by lia. reflexivity.
Qed.

(** The last digit of a numeral is the remainder by ten. *)
Lemma str_of_Z_step (n : Z) :
  10 <= n -> str_of_Z n = str_of_Z (n / 10) ++ String (digit_char (n mod 10)) "".
Proof.
  intros H. unfold str_of_Z at 1. rewrite decimal_S.
  destruct (n <? 10) eqn:E; [apply Z.ltb_lt in E; lia |]. f_equal.
  pose proof (log2_bound n) as B.
  destruct (Z.to_nat (Z.log2 n)) as [| f] eqn:F.
  - change (2 ^ Z.of_nat 1) with 2 in B. lia.
  - symmetry. apply str_of_Z_fuel. rewrite pow2_S in B. apply tenth_bound. lia.
Qed.

Lemma str_of_Z_thousand (n : Z) :
  1000 <= n -> str_of_Z n = str_of_Z (n / 1000) ++ pad3 (n mod 1000).
Proof.
  intros H.
  rewrite (str_of_Z_step n), (str_of_Z_step (n / 10)), (str_of_Z_step (n / 10 / 10))
    by (Z.div_mod_to_equations; lia).
  rewrite !string_app_assoc. cbn [append]. unfold pad3, pad2.
  replace (n / 10 / 10 / 10) with (n / 1000) by (Z.div_mod_to_equations; lia).
  replace (n mod 1000 / 100 mod 10) with (n / 10 / 10 mod 10)
    by (Z.div_mod_to_equations; lia).
  replace (n mod 1000 / 10 mod 10) with (n / 10 mod 10)
    by (Z.div_mod_to_equations; lia).
  replace (n mod 1000 mod 10) with (n mod 10) by (Z.div_mod_to_equations; lia).
  reflexivity.
Qed.

Lemma all_chars_app (p : ascii -> bool) (s t : string) :
  all_chars p (s ++ t) = all_chars p s && all_chars p t.
Proof.
  induction s as [| x s IH]; cbn; [reflexivity |]. now rewrite IH, andb_assoc.
Qed.

Lemma all_chars_impl (p q : ascii -> bool) (s : string) :
  (forall c, p c = true -> q c = true) ->
  all_chars p s = true -> all_chars q s = true.
Proof.
  intros Hpq. induction s as [| x s IH]; cbn; [reflexivity |].
  intros H. apply andb_true_iff in H as [Hx Hs].
  now rewrite (Hpq _ Hx), IH.
Qed.

Lemma decimal_digits (f : nat) : forall n, all_chars is_digit (decimal f n) = true.
Proof.
  induction f as [| f IH]; intros n; [reflexivity |].
  rewrite decimal_S, all_chars_app. cbn [all_chars].
  rewrite digit_char_is_digit by apply digit_mod.
  destruct (n <? 10); [reflexivity |]. now rewrite IH.
Qed.

Lemma str_of_Z_digits (n : Z) : all_chars is_digit (str_of_Z n) = true.
Proof. apply decimal_digits. Qed.

Lemma pad2_all_digits (n : Z) : all_chars is_digit (pad2 n) = true.
Proof.
  unfold pad2. cbn [all_chars].
  rewrite !digit_char_is_digit; [reflexivity | |];
    pose proof (Z.mod_pos_bound (n / 10) 10); pose proof (Z.mod_pos_bound n 10); lia.
Qed.

Lemma pad3_all_digits (n : Z) : all_chars is_digit (pad3 n) = true.
Proof.
  unfold pad3. cbn [all_chars]. rewrite pad2_all_digits.
  rewrite digit_char_is_digit; [reflexivity |].
  pose proof (Z.mod_pos_bound (n / 100) 10). lia.
Qed.

Lemma digit_is_no_mark (c : ascii) :
  is_digit c = true ->
  Ascii.eqb c "." = false /\ Ascii.eqb c "<" = false /\ Ascii.eqb c ">" = false.
Proof.
  intros H. destruct (is_digit_inv c H) as (v & Hv & -> & _).
  digits_in Hv; repeat split; reflexivity.
Qed.

(** *** Slices of a numeral *)

Lemma substring_all (s : string) : substring 0 (String.length s) s = s.
Proof. induction s as [| x s IH]; cbn; [reflexivity | now rewrite IH]. Qed.

Lemma substring_skip (u w : string) (m : nat) :
  substring (String.length u) m (u ++ w) = substring 0 m w.
Proof. induction u as [| x u IH]; cbn; [reflexivity | exact IH]. Qed.

Lemma substring_prefix (u w : string) : substring 0 (String.length u) (u ++ w) = u.
Proof.
  induction u as [| x u IH]; cbn; [now destruct w | now rewrite IH].
Qed.

Lemma get_third (u : string) (a b c : ascii) :
  String.get (String.length u + 2) (u ++ String a (String b (String c ""))) = Some c.
Proof. induction u as [| x u IH]; cbn; [reflexivity | exact IH]. Qed.

Lemma slices_of_three (u : string) (a b c : ascii) :
  take_last 3 (u ++ String a (String b (String c ""))) = String a (String b (String c ""))
  /\ drop_last 3 (u ++ String a (String b (String c ""))) = u
  /\ last_char (u ++ String a (String b (String c ""))) = Some c.
Proof.
  unfold take_last, drop_last, last_char. rewrite string_length_app.
  cbn [String.length]. change (Z.to_nat 3) with 3%nat.
  replace (String.length u + 3 - 3)%nat with (String.length u) by lia.
  replace (String.length u + 3)%nat with (S (String.length u + 2)) by lia.
  rewrite substring_skip, substring_prefix, get_third. repeat split.
Qed.

(** A numeral below 1000 is one group. *)
Lemma slices_of_short (n : Z) :
  0 <= n < 1000 ->
  take_last 3 (str_of_Z n) = str_of_Z n
  /\ drop_last 3 (str_of_Z n) = ""
  /\ exists c, last_char (str_of_Z n) = Some c /\ is_digit c = true.
Proof.
  intros H.
  pose proof (range_check
    (fun z => String.eqb (take_last 3 (str_of_Z z)) (str_of_Z z)
              && String.eqb (drop_last 3 (str_of_Z z)) ""
              && match last_char (str_of_Z z) with
                 | Some c => is_digit c
                 | None => false
                 end) 0 1000) as R.
  cbv beta in R. specialize (R ltac:(vm_compute; reflexivity) n H).
  apply andb_true_iff in R as [R R3]. apply andb_true_iff in R as [R1 R2].
  apply String.eqb_eq in R1, R2. split; [exact R1 |]. split; [exact R2 |].
  destruct (last_char (str_of_Z n)) as [c |]; [| discriminate R3]. now exists c.
Qed.

(** *** The grouping *)

Lemma next_interval_id_ID (grouping : list Z) (last_interval : option Z) :
  id_ID_intervals grouping last_interval ->
  exists grouping' last',
    next_interval grouping last_interval = Some (3, grouping', last')
    /\ id_ID_intervals grouping' last'.
Proof.
  unfold id_ID_intervals.
  intros [[-> ->] | [[-> ->] | [-> ->]]]; cbn; eauto 8.
Qed.

Lemma group_loop_done (fuel : nat) (grouping : list Z) (last_interval : option Z)
    (groups : list string) :
  id_ID_intervals grouping last_interval ->
  group_loop fuel grouping last_interval "" groups = ("", "", groups).
Proof.
  intros G. destruct fuel as [| fuel]; [reflexivity |]. cbn [group_loop].
  destruct (next_interval_id_ID _ _ G) as (g' & l' & -> & _). reflexivity.
Qed.

(** The loop of [_group] cuts a numeral into its groups of three. *)
Lemma group_loop_numeral (f : nat) :
  forall (fuel : nat) (n : Z) (grouping : list Z) (last_interval : option Z)
         (groups : list string),
    id_ID_intervals grouping last_interval ->
    0 <= n < 2 ^ Z.of_nat (S f) ->
    (String.length (str_of_Z n) <= fuel)%nat ->
    group_loop fuel grouping last_interval (str_of_Z n) groups
    = ("", "", (groups ++ groups_of f n)%list).
Proof.
  assert (Short : forall (f : nat) (fuel : nat) (n : Z) grouping last_interval groups,
             id_ID_intervals grouping last_interval ->
             0 <= n < 1000 ->
             (String.length (str_of_Z n) <= fuel)%nat ->
             group_loop fuel grouping last_interval (str_of_Z n) groups
             = ("", "", (groups ++ [str_of_Z n])%list)).
  { intros _ fuel n grouping last_interval groups G Hn Hl.
    destruct (slices_of_short n Hn) as (T & D & c & Hc & Hd).
    destruct fuel as [| fuel].
    { unfold last_char in Hc.
      destruct (String.length (str_of_Z n)); [discriminate Hc | lia]. }
    cbn [group_loop].
    destruct (next_interval_id_ID _ _ G) as (g' & l' & -> & G').
    rewrite Hc, Hd, T, D. now apply group_loop_done. }
  induction f as [| f IH]; intros fuel n grouping last_interval groups G Hn Hl.
  - change (2 ^ Z.of_nat 1) with 2 in Hn. cbn [groups_of].
    apply (Short O); [exact G | lia | exact Hl].
  - cbn [groups_of]. destruct (n <? 1000) eqn:E.
    + apply Z.ltb_lt in E. apply (Short O); [exact G | lia | exact Hl].
    + apply Z.ltb_ge in E. rewrite str_of_Z_thousand in Hl |- * by exact E.
      unfold pad3, pad2 in Hl |- *.
      match goal with
      | |- context [str_of_Z ?q ++ String ?a (String ?b (String ?c ""))] =>
          destruct (slices_of_three (str_of_Z q) a b c) as (T & D & Hc);
          assert (Hd : is_digit c = true)
            by (apply digit_char_is_digit, digit_mod)
      end.
      rewrite string_length_app in Hl. cbn [String.length] in Hl.
      destruct fuel as [| fuel]; [lia |].
      cbn [group_loop].
      destruct (next_interval_id_ID _ _ G) as (g' & l' & -> & G').
      rewrite Hc, Hd, T, D.
      rewrite IH; [| exact G' | | lia].
      * rewrite <- app_assoc. reflexivity.
      * rewrite pow2_S in Hn. Z.div_mod_to_equations. lia.
Qed.

Lemma join_snoc (sep : string) (l : list string) (x : string) :
  l <> [] -> join sep (l ++ [x]) = join sep l ++ sep ++ x.
Proof.
  induction l as [| a l IH]; [contradiction |]. intros _.
  destruct l as [| b l]; [reflexivity |].
  change (join sep ((a :: b :: l) ++ [x]))
    with (a ++ sep ++ join sep ((b :: l) ++ [x])).
  rewrite IH by discriminate.
  change (join sep (a :: b :: l)) with (a ++ sep ++ join sep (b :: l)).
  now rewrite !string_app_assoc.
Qed.

Lemma groups_of_not_nil (f : nat) (n : Z) : rev (groups_of f n) <> [].
Proof.
  destruct f as [| f]; cbn [groups_of]; [discriminate |].
  destruct (n <? 1000); [discriminate |]. cbn [rev].
  intros H. apply app_eq_nil in H as [_ H]. discriminate H.
Qed.

Lemma join_groups (f : nat) :
  forall n, join "." (rev (groups_of f n)) = thousands f n.
Proof.
  induction f as [| f IH]; intros n; [reflexivity |].
  cbn [groups_of thousands]. destruct (n <? 1000); [reflexivity |].
  cbn [rev]. rewrite join_snoc by apply groups_of_not_nil. now rewrite IH.
Qed.

(** [_group] on the numeral of [n] puts a dot before every group of
    three digits counted from the right. *)
Lemma group_numeral (n : Z) : 0 <= n -> group localeconv (str_of_Z n) = grouped n.
Proof.
  intros H. unfold group. cbn [mon_grouping localeconv mon_thousands_sep].
  rewrite (group_loop_numeral (Z.to_nat (Z.log2 n)));
    [| unfold id_ID_intervals; now left | split; [exact H | now apply log2_bound] | lia].
  cbn [app append]. apply join_groups.
Qed.

(** *** The text of an amount *)

Lemma split_point_numeral (u v : string) :
  all_chars is_digit u = true -> split_point (u ++ String "." v) = Some (u, v).
Proof.
  induction u as [| x u IH]; cbn; [reflexivity |].
  intros H. apply andb_true_iff in H as [Hx Hu].
  destruct (digit_is_no_mark x Hx) as (-> & _). now rewrite IH.
Qed.

Lemma replace_char_app (c : ascii) (by_ : string) (s t : string) :
  replace_char c by_ (s ++ t) = replace_char c by_ s ++ replace_char c by_ t.
Proof.
  induction s as [| x s IH]; cbn; [reflexivity |].
  now rewrite IH, string_app_assoc.
Qed.

Lemma replace_char_plain (c : ascii) (by_ : string) (s : string) :
  all_chars (fun x => negb (Ascii.eqb x c)) s = true -> replace_char c by_ s = s.
Proof.
  induction s as [| x s IH]; cbn; [reflexivity |].
  intros H. apply andb_true_iff in H as [Hx Hs].
  apply negb_true_iff in Hx. now rewrite Hx, IH.
Qed.

Lemma two_digits_text (n : Z) : 0 <= n < 100 -> zfill 2 n = pad2 n.
Proof.
  intros H. apply String.eqb_eq.
  apply (range_check (fun z => String.eqb (zfill 2 z) (pad2 z)) 0 100);
    [vm_compute; reflexivity | exact H].
Qed.

Lemma thousands_chars (f : nat) :
  forall n, all_chars (fun c => is_digit c || Ascii.eqb c ".") (thousands f n) = true.
Proof.
  assert (D : forall s, all_chars is_digit s = true ->
                        all_chars (fun c => is_digit c || Ascii.eqb c ".") s = true).
  { intros s. apply all_chars_impl. intros c ->. reflexivity. }
  induction f as [| f IH]; intros n; cbn [thousands];
    [apply D, str_of_Z_digits |].
  destruct (n <? 1000); [apply D, str_of_Z_digits |].
  rewrite !all_chars_app, IH, (D _ (pad3_all_digits _)). reflexivity.
Qed.

Lemma round_half_even_nonneg (num den : Z) :
  0 <= num -> 0 < den -> 0 <= round_half_even num den.
Proof.
  intros Hn Hd. unfold round_half_even.
  pose proof (Z.div_pos num den Hn Hd).
  destruct (2 * (num mod den) ?= den); [destruct (Z.even _) | |]; lia.
Qed.

Lemma Some_eq (a b : Z) : Some a = Some b -> a = b.
Proof. congruence. Qed.

(** The fixed-point text Python formats is the text of the hundredths. *)
Lemma format_cents (x : float) (c : Z) :
  cents x = Some c ->
  0 <= c /\ format_f 2 (PrimFloat.abs x) = fixed_point 2 c.
Proof.
  unfold cents, format_f. destruct (Prim2SF (PrimFloat.abs x)) as [s | s | | s m e];
    intros H; try discriminate H; apply Some_eq in H; subst c.
  - split; [lia | reflexivity].
  - split; [| reflexivity].
    destruct (0 <=? e) eqn:E.
    + apply Z.leb_le in E. pose proof (Z.pow_nonneg 2 e). pose proof (Pos2Z.is_pos m).
      nia.
    + apply round_half_even_nonneg; [lia |]. apply Z.pow_pos_nonneg; lia.
Qed.

Lemma localize_cents (c : Z) :
  0 <= c ->
  localize localeconv (fixed_point 2 c) true
  = grouped (c / 100) ++ "," ++ pad2 (c mod 100).
Proof.
  intros H. unfold localize, fixed_point. cbn [Z.leb Z.compare].
  change (10 ^ 2) with 100. change (Z.to_nat 2) with 2%nat. cbn [append].
  rewrite split_point_numeral by apply str_of_Z_digits.
  rewrite group_numeral by (apply Z.div_pos; lia).
  rewrite two_digits_text by (apply Z.mod_pos_bound; lia).
  reflexivity.
Qed.

Lemma currency_marks (x : float) :
  currency x true
  = replace_char ">" ""
      (replace_char "<" ""
         ((if PrimFloat.ltb x 0 then "-" else "") ++ "Rp" ++ "<"
          ++ localize localeconv (format_f 2 (PrimFloat.abs x)) true ++ ">")).
Proof. unfold currency. destruct (PrimFloat.ltb x 0); reflexivity. Qed.

(** The currency text of an amount is the rupiah text of its
    hundredths. *)
Lemma currency_rupiah (x : float) (c : Z) :
  cents x = Some c -> currency x true = rupiah (PrimFloat.ltb x 0) c.
Proof.
  intros Hc. destruct (format_cents x c Hc) as [H0 Hf].
  rewrite currency_marks, Hf, localize_cents by exact H0. unfold rupiah.
  assert (P : forall m, m = "<"%char \/ m = ">"%char ->
            all_chars (fun y => negb (Ascii.eqb y m))
              (grouped (c / 100) ++ "," ++ pad2 (c mod 100)) = true).
  { intros m Hm.
    assert (D : forall y, is_digit y = true -> negb (Ascii.eqb y m) = true).
    { intros y Hy. destruct (digit_is_no_mark y Hy) as (_ & E1 & E2).
      destruct Hm as [-> | ->]; [now rewrite E1 | now rewrite E2]. }
    unfold grouped. rewrite !all_chars_app.
    apply andb_true_iff. split; [| apply andb_true_iff; split].
    - eapply all_chars_impl; [| apply thousands_chars].
      intros y Hy. apply orb_true_iff in Hy as [Hy | Hy]; [now apply D |].
      apply Ascii.eqb_eq in Hy as ->. destruct Hm as [-> | ->]; reflexivity.
    - destruct Hm as [-> | ->]; reflexivity.
    - eapply all_chars_impl; [exact D | apply pad2_all_digits]. }
  revert P. generalize (grouped (c / 100) ++ "," ++ pad2 (c mod 100)).
  intros text P.
  destruct (PrimFloat.ltb x 0); cbn;
    rewrite replace_char_app, (replace_char_plain "<") by (apply P; now left);
    cbn;
    rewrite replace_char_app, (replace_char_plain ">") by (apply P; now right);
    cbn; now rewrite string_app_nil_r.
Qed.

(** *** Reading a rupiah text back *)

Lemma only_digits_app (s t : string) :
  only_digits (s ++ t) = only_digits s ++ only_digits t.
Proof.
  induction s as [| x s IH]; cbn; [reflexivity |].
  destruct (is_digit x); cbn; now rewrite IH.
Qed.

Lemma only_digits_all (s : string) : all_chars is_digit s = true -> only_digits s = s.
Proof.
  induction s as [| x s IH]; cbn; [reflexivity |].
  intros H. apply andb_true_iff in H as [-> Hs]. now rewrite IH.
Qed.

Lemma only_digits_thousands (f : nat) :
  forall n, only_digits (thousands f n) = str_of_Z n.
Proof.
  induction f as [| f IH]; intros n; cbn [thousands];
    [apply only_digits_all, str_of_Z_digits |].
  destruct (n <? 1000) eqn:E; [apply only_digits_all, str_of_Z_digits |].
  apply Z.ltb_ge in E.
  rewrite !only_digits_app, IH, (only_digits_all _ (pad3_all_digits _)).
  change (only_digits ".") with "". cbn [append].
  now rewrite (str_of_Z_thousand n).
Qed.

Lemma int_digits_app (s t : string) :
  forall acc, int_digits acc (s ++ t) = int_digits (int_digits acc s) t.
Proof. induction s as [| x s IH]; intros acc; cbn; [reflexivity | apply IH]. Qed.

Lemma int_digits_numeral (f : nat) :
  forall n, 0 <= n < 2 ^ Z.of_nat f -> int_digits 0 (str_of_Z n) = n.
Proof.
  induction f as [| f IH]; intros n H.
  - change (2 ^ Z.of_nat 0) with 1 in H. replace n with 0 by lia. reflexivity.
  - destruct (Z.ltb_spec n 10) as [S | S].
    + rewrite str_of_Z_digit by lia. cbn [int_digits].
      rewrite digit_val_char by lia. lia.
    + rewrite str_of_Z_step, int_digits_app by exact S.
      rewrite pow2_S in H. rewrite IH by (now apply tenth_bound).
      cbn [int_digits]. rewrite digit_val_char by apply digit_mod.
      Z.div_mod_to_equations. lia.
Qed.

(** The digits of the rupiah text of [c] hundredths read [c]. *)
Lemma shown_cents_rupiah (negative : bool) (c : Z) :
  0 <= c -> shown_cents (rupiah negative c) = c.
Proof.
  intros H. unfold shown_cents, rupiah, grouped.
  assert (E : only_digits ((if negative then "-" else "") ++ "Rp"
                           ++ thousands (Z.to_nat (Z.log2 (c / 100))) (c / 100)
                           ++ "," ++ pad2 (c mod 100))
              = str_of_Z (c / 100) ++ pad2 (c mod 100)).
  { rewrite !only_digits_app, only_digits_thousands,
      (only_digits_all _ (pad2_all_digits _)).
    destruct negative; reflexivity. }
  rewrite E, int_digits_app.
  rewrite (int_digits_numeral (S (Z.to_nat (Z.log2 (c / 100)))))
    by (split; [apply Z.div_pos; lia | apply log2_bound, Z.div_pos; lia]).
  unfold pad2. cbn [int_digits].
  rewrite !digit_val_char;
    [| pose proof (Z.mod_pos_bound (c mod 100) 10); lia
     | pose proof (Z.mod_pos_bound (c mod 100 / 10) 10); lia].
  Z.div_mod_to_equations. lia.
Qed.

(** An amount that has no hundredths is infinite or not a number, and
    its currency text says so. *)
Lemma currency_not_finite (x : float) :
  cents x = None ->
  exists w, (w = "inf" \/ w = "nan")
            /\ currency x true = (if PrimFloat.ltb x 0 then "-" else "") ++ "Rp" ++ w.
Proof.
  intros H. rewrite currency_marks. unfold cents in H. unfold format_f.
  destruct (Prim2SF (PrimFloat.abs x)) as [s | s | | s m e]; try discriminate H.
  - exists "inf". split; [now left |]. destruct (PrimFloat.ltb x 0); reflexivity.
  - exists "nan". split; [now right |]. destruct (PrimFloat.ltb x 0); reflexivity.
Qed.
(* ================================================================= *)
(** ** The service *)

Section Properties.

Context {L : Libs}.

Ltac unfold_service :=
  unfold response, after, serve, dispatch,
    TransactionResource_get, TransactionResource_post,
    TransactionResource_put, TransactionResource_delete,
    CategoryResource_get, CategoryResource_post,
    CategoryResource_put, CategoryResource_delete,
    RegisterResource_post, LoginResource_post, jwt_required,
    generate_password_hash, check_password, datetime_strptime,
    transaction_parser, category_parser, register_parser, login_parser,
    required, and_then,
    Transaction_query_get, Transaction_query_all, session_add_Transaction,
    assign_description, assign_amount, assign_category_id,
    Transaction_update, session_delete_Transaction,
    Category_query_get, Category_query_all, session_add_Category,
    assign_name, Category_update, session_delete_Category,
    User_query_filter_by_username_first, session_add_User,
    session_commit, refused, reads, writes, bind, raise, ret.

Ltac destruct_bodies :=
  repeat match goal with
         | b : TransactionBody.t |- _ => destruct b as [[| |?] [| |?] [| |?] [| |?]]
         | b : CategoryBody.t |- _ => destruct b as [[| |?]]
         | b : CredentialsBody.t |- _ => destruct b as [[| |?] [| |?]]
         end.

(** Follows a handler through its branches, outermost test first. *)
Ltac follow_handler :=
  cbn;
  repeat (match goal with
          | |- context [verify_jwt_in_request ?a] =>
              destruct (verify_jwt_in_request a) eqn:?
          | |- context [truthy ?i] => destruct (truthy i) eqn:?
          | |- context [find ?f ?l] => destruct (find f l) eqn:?
          | |- context [int64 ?i] => destruct (int64 i) eqn:?
          | |- context [PrimFloat.is_nan ?x] => destruct (PrimFloat.is_nan x) eqn:?
          | |- context [strptime ?x] => destruct (strptime x) eqn:?
          | |- context [hashpw ?h ?x] => destruct (hashpw h x) eqn:?
          | |- context [check_password_hash ?h ?x] =>
              destruct (check_password_hash h x) eqn:?
          | |- context [match ?s with EmptyString => _ | String _ _ => _ end] =>
              destruct s eqn:?
          end; cbn).

Lemma serve_post_transaction (db : DB) (a : option string)
    (description : string) (amount : float) (category_id : Z) (date_str : string) :
  verify_jwt_in_request a = None ->
  serve db (POST_transactions a
              (TransactionBody.mk (Value description) (Value amount)
                 (Value category_id) (Value date_str)))
  = match strptime date_str with
    | None =>
        ((message "Invalid date format. Please use YYYY-MM-DD format.", 400), db)
    | Some date =>
        if int64 category_id && negb (PrimFloat.is_nan amount)
        then ((message "Transaction created successfully", 201),
              with_transactions db
                (transactions db ++ [created db description amount category_id date]))
        else ((server_error, 500), db)
    end.
Proof.
  intros Ha. unfold_service. rewrite Ha. cbn.
  destruct (strptime date_str); [| reflexivity].
  destruct (int64 category_id), (PrimFloat.is_nan amount); reflexivity.
Qed.

Lemma serve_get_transaction (db : DB) (a : option string) (i : Z) :
  verify_jwt_in_request a = None -> i <> 0 ->
  serve db (GET_transactions a (Some i))
  = match find (fun t => Transaction.id t =? i) (transactions db) with
    | Some t => ((Transaction_json t (JFloat (Transaction.amount t)), 200), db)
    | None => if int64 i then ((message "Transaction not found", 404), db)
              else ((server_error, 500), db)
    end.
Proof.
  intros Ha Hi. unfold_service. rewrite Ha. cbn.
  apply Z.eqb_neq in Hi. rewrite Hi. cbn.
  destruct (find _ _); [reflexivity |]. destruct (int64 i); reflexivity.
Qed.

Lemma serve_list_transactions (db : DB) (a : option string) :
  verify_jwt_in_request a = None ->
  serve db (GET_transactions a None)
  = ((JList (map (fun t => Transaction_json t
                              (JStr (currency (Transaction.amount t) true)))
                 (transactions db)), 200), db).
Proof. intros Ha. unfold_service. rewrite Ha. reflexivity. Qed.

(** *** Every state the service reaches has sound keys *)

Lemma wf_db_empty : wf_db empty_db.
Proof. repeat split; constructor. Qed.

Lemma find_username_none (l : list User.t) (u : string) :
  find (fun x => String.eqb (User.username x) u) l = None ->
  ~ In u (map User.username l).
Proof.
  intros H Hin. apply in_map_iff in Hin as (x & <- & Hx).
  apply (find_none _ _ H) in Hx. cbn in Hx. now rewrite String.eqb_refl in Hx.
Qed.

Lemma NoDup_snoc {A} (l : list A) (x : A) : NoDup l -> ~ In x l -> NoDup (l ++ [x]).
Proof.
  intros Hn Hx. apply NoDup_app; [exact Hn | repeat constructor; intros [] |].
  intros y Hy [<- | []]. tauto.
Qed.

Lemma after_wf (db : DB) (req : Request) : wf_db db -> wf_db (after db req).
Proof.
  intros (Ht & Hc & Hu & Hn).
  destruct req; destruct_bodies; unfold_service; follow_handler;
    unfold wf_db; cbn [transactions categories users];
    rewrite ?map_app, ?map_key_update by reflexivity; cbn [map];
    repeat split;
    first [ assumption | apply Ht | apply Hc | apply Hu
          | apply wf_ids_snoc; assumption
          | apply wf_ids_filter; assumption
          | apply NoDup_snoc; [assumption | now apply find_username_none] ].
Qed.

Lemma run_snoc (db : DB) (reqs : list Request) (req : Request) :
  run db (reqs ++ [req]) = after (run db reqs) req.
Proof. unfold run. now rewrite fold_left_app. Qed.

Lemma run_wf (db : DB) (reqs : list Request) : wf_db db -> wf_db (run db reqs).
Proof.
  revert db. induction reqs as [| req reqs IH]; intros db H; cbn; [exact H |].
  apply IH. now apply after_wf.
Qed.

Lemma reachable_wf (db : DB) : reachable db -> wf_db db.
Proof. intros [reqs ->]. apply run_wf, wf_db_empty. Qed.

(** *** Transactions: create and read back *)

Lemma created_found (db : DB) (description : string) (amount : float)
    (category_id : Z) (date : Date.t) :
  find (fun t => Transaction.id t =? next_id (map Transaction.id (transactions db)))
       (transactions db ++ [created db description amount category_id date])
  = Some (created db description amount category_id date).
Proof.
  apply (find_snoc_fresh Transaction.id (transactions db)
           (created db description amount category_id date)).
  apply next_id_fresh.
Qed.

(** C1, as amended: in every state the service reaches, for a payload
    with a description, an amount that is a number, a category id of 64
    bits and a date text in the form YYYY-MM-DD whose year is at least
    1000, POST /transactions answers 201 and creates one record, and
    GET /transactions/{id} on the id of that record returns the posted
    description, category id and date text, and the posted amount as the
    store holds it (a negative zero as zero). *)
Theorem post_then_get_transaction (db : DB) (a : option string)
    (description : string) (amount : float) (category_id : Z) (date_str : string) :
  reachable db ->
  verify_jwt_in_request a = None ->
  is_YYYY_MM_DD date_str = true ->
  year_from_1000 date_str = true ->
  PrimFloat.is_nan amount = false ->
  int64 category_id = true ->
  exists i,
    response db (POST_transactions a
                   (TransactionBody.mk (Value description) (Value amount)
                      (Value category_id) (Value date_str)))
    = (message "Transaction created successfully", 201)
    /\ map Transaction.id
         (transactions
            (after db (POST_transactions a
                         (TransactionBody.mk (Value description) (Value amount)
                            (Value category_id) (Value date_str)))))
       = (map Transaction.id (transactions db) ++ [i])%list
    /\ response
         (after db (POST_transactions a
                      (TransactionBody.mk (Value description) (Value amount)
                         (Value category_id) (Value date_str))))
         (GET_transactions a (Some i))
       = (JDict [("id", JInt i);
                 ("description", JStr description);
                 ("amount", JFloat (sqlite_real amount));
                 ("category_id", JInt category_id);
                 ("date", JStr date_str)], 200).
Proof.
  intros Hr Ha Hd Hy Hnan Hcat.
  destruct (strptime_strftime_text date_str Hd Hy) as (date & Hp & Hf).
  apply reachable_wf in Hr. destruct Hr as ((_ & Hpos) & _).
  exists (next_id (map Transaction.id (transactions db))).
  unfold response, after.
  rewrite serve_post_transaction by exact Ha. rewrite Hp, Hcat, Hnan. cbn [fst snd andb negb].
  split; [reflexivity |]. split.
  - cbn. rewrite map_app. reflexivity.
  - rewrite serve_get_transaction; [| exact Ha |].
    + cbn [with_transactions transactions]. rewrite created_found. cbn [fst].
      unfold Transaction_json, created.
      cbn [Transaction.id Transaction.description Transaction.amount
           Transaction.category_id Transaction.date].
      rewrite Hf. reflexivity.
    + pose proof (next_id_positive _ Hpos). lia.
Qed.

(** C5, as amended: a POST /transactions whose date text [strptime]
    rejects answers 400 and leaves the store as it was; with a date text
    it accepts, a body whose amount is a number and whose category id
    has 64 bits is inserted as one new row and the answer is 201, and a
    body whose amount is NaN or whose category id has more than 64 bits
    is answered 500 and nothing is inserted; the date of a new row is a
    day of the calendar, every text in the form YYYY-MM-DD is accepted,
    and "2024-13-01" is rejected. *)
Theorem post_transaction_checks_date (db : DB) (a : option string)
    (description : string) (amount : float) (category_id : Z) (date_str : string) :
  verify_jwt_in_request a = None ->
  (strptime date_str = None ->
   serve db (POST_transactions a
               (TransactionBody.mk (Value description) (Value amount)
                  (Value category_id) (Value date_str)))
   = ((message "Invalid date format. Please use YYYY-MM-DD format.", 400), db))
  /\ (forall date, strptime date_str = Some date ->
      date_ok (Date.year date) (Date.month date) (Date.day date) = true
      /\ (PrimFloat.is_nan amount = false -> int64 category_id = true ->
          serve db (POST_transactions a
                      (TransactionBody.mk (Value description) (Value amount)
                         (Value category_id) (Value date_str)))
          = ((message "Transaction created successfully", 201),
             with_transactions db
               (transactions db
                ++ [created db description amount category_id date])))
      /\ (PrimFloat.is_nan amount = true \/ int64 category_id = false ->
          snd (response db (POST_transactions a
                              (TransactionBody.mk (Value description) (Value amount)
                                 (Value category_id) (Value date_str)))) = 500
          /\ after db (POST_transactions a
                         (TransactionBody.mk (Value description) (Value amount)
                            (Value category_id) (Value date_str))) = db))
  /\ (is_YYYY_MM_DD date_str = true -> strptime date_str <> None)
  /\ strptime "2024-13-01" = None.
Proof.
  intros Ha. split; [| split; [| split]].
  - intros Hp. rewrite serve_post_transaction by exact Ha. now rewrite Hp.
  - intros date Hp. split; [| split].
    + now apply strptime_date_ok with date_str.
    + intros Hnan Hcat. rewrite serve_post_transaction by exact Ha.
      now rewrite Hp, Hnan, Hcat.
    + intros Hbad. unfold response, after.
      rewrite serve_post_transaction by exact Ha. rewrite Hp.
      destruct Hbad as [-> | ->]; [rewrite andb_false_r | cbn [andb]];
        split; reflexivity.
  - intros Hs. destruct (strptime_strict _ Hs) as (d & Hd & _). congruence.
  - reflexivity.
Qed.

(** C9, as amended: POST /transactions never looks at the categories:
    for a body with a date [strptime] accepts, an amount that is a
    number and a category id of 64 bits, the answer is 201 and the row
    is inserted with the category id of the body, whatever the
    categories are; when no category has that id, the inserted row
    refers to no category. *)
Theorem post_transaction_ignores_categories (db : DB) (a : option string)
    (description : string) (amount : float) (category_id : Z)
    (date_str : string) (date : Date.t) :
  verify_jwt_in_request a = None ->
  strptime date_str = Some date ->
  PrimFloat.is_nan amount = false ->
  int64 category_id = true ->
  response db (POST_transactions a
                 (TransactionBody.mk (Value description) (Value amount)
                    (Value category_id) (Value date_str)))
  = (message "Transaction created successfully", 201)
  /\ transactions
       (after db (POST_transactions a
                    (TransactionBody.mk (Value description) (Value amount)
                       (Value category_id) (Value date_str))))
     = (transactions db ++ [created db description amount category_id date])%list
  /\ categories
       (after db (POST_transactions a
                    (TransactionBody.mk (Value description) (Value amount)
                       (Value category_id) (Value date_str))))
     = categories db
  /\ (find (fun c => Category.id c =? category_id) (categories db) = None ->
      exists t,
        In t (transactions
                (after db (POST_transactions a
                             (TransactionBody.mk (Value description) (Value amount)
                                (Value category_id) (Value date_str)))))
        /\ Transaction.category_id t = category_id
        /\ find (fun c => Category.id c =? Transaction.category_id t)
                (categories
                   (after db (POST_transactions a
                                (TransactionBody.mk (Value description) (Value amount)
                                   (Value category_id) (Value date_str)))))
           = None).
Proof.
  intros Ha Hp Hnan Hcat. unfold response, after.
  rewrite serve_post_transaction by exact Ha. rewrite Hp, Hnan, Hcat. cbn.
  split; [reflexivity |]. split; [reflexivity |]. split; [reflexivity |].
  intros Hc.
  exists (created db description amount category_id date). split; [| split].
  - apply in_or_app. right. now left.
  - reflexivity.
  - exact Hc.
Qed.

(** *** Transactions: update and delete *)

(** The store after the four assignments of [put] and its commit. *)
Lemma serve_put_transaction (db : DB) (a : option string) (i : Z) (t : Transaction.t)
    (description : string) (amount : float) (category_id : Z) (date_str : string) :
  verify_jwt_in_request a = None ->
  find (fun x => Transaction.id x =? i) (transactions db) = Some t ->
  serve db (PUT_transactions a i
              (TransactionBody.mk (Value description) (Value amount)
                 (Value category_id) (Value date_str)))
  = match strptime date_str with
    | None =>
        ((message "Invalid date format. Please use YYYY-MM-DD format.", 400), db)
    | Some date =>
        if int64 category_id && negb (PrimFloat.is_nan amount) then
        ((message "Transaction updated successfully", 200),
         with_transactions db
           (map (fun x => if Transaction.id x =? Transaction.id t
                          then set_date date x else x)
           (map (fun x => if Transaction.id x =? Transaction.id t
                          then set_category_id category_id x else x)
           (map (fun x => if Transaction.id x =? Transaction.id t
                          then set_amount (sqlite_real amount) x else x)
           (map (fun x => if Transaction.id x =? Transaction.id t
                          then set_description description x else x)
                (transactions db))))))
        else ((server_error, 500), db)
    end.
Proof.
  intros Ha Hf. unfold_service. rewrite Ha. cbn. rewrite Hf. cbn.
  destruct (PrimFloat.is_nan amount), (int64 category_id); cbn;
    destruct (strptime date_str); reflexivity.
Qed.

(** When [put] returns 400 for the date, the session holds the three
    assignments made before the date was parsed, and nothing of them is
    committed. *)
Lemma put_malformed_date_session (db : DB) (a : option string) (i : Z)
    (t : Transaction.t) (description : string) (amount : float)
    (category_id : Z) (date_str : string) :
  verify_jwt_in_request a = None ->
  find (fun x => Transaction.id x =? i) (transactions db) = Some t ->
  PrimFloat.is_nan amount = false ->
  int64 category_id = true ->
  strptime date_str = None ->
  dispatch (PUT_transactions a i
              (TransactionBody.mk (Value description) (Value amount)
                 (Value category_id) (Value date_str)))
           {| committed := db; pending := db; unflushable := false |}
  = (inr (message "Invalid date format. Please use YYYY-MM-DD format.", 400),
     {| committed := db;
        pending :=
          with_transactions db
            (map (fun x => if Transaction.id x =? Transaction.id t
                           then set_category_id category_id x else x)
            (map (fun x => if Transaction.id x =? Transaction.id t
                           then set_amount (sqlite_real amount) x else x)
            (map (fun x => if Transaction.id x =? Transaction.id t
                           then set_description description x else x)
                 (transactions db))));
        unflushable := false |}).
Proof.
  intros Ha Hf Hnan Hcat Hp. unfold_service. rewrite Ha. cbn. rewrite Hf. cbn.
  rewrite Hnan, Hcat. cbn. rewrite Hp. reflexivity.
Qed.

(** C2: a PUT /transactions/{id} on an existing id with a well-typed
    body whose date text [strptime] rejects answers 400 and leaves the
    store as it was, the transaction with its description, amount,
    category id and date included; when the date is accepted and the
    store takes the amount and the category id, the answer is 200 and
    the stored transaction has all four fields of the body, the other
    transactions staying as they were; when the store refuses one of
    them the answer is 500 and the store is as it was. *)
Theorem put_transaction_all_or_nothing (db : DB) (a : option string) (i : Z)
    (t : Transaction.t) (description : string) (amount : float)
    (category_id : Z) (date_str : string) :
  verify_jwt_in_request a = None ->
  find (fun x => Transaction.id x =? i) (transactions db) = Some t ->
  (strptime date_str = None ->
   serve db (PUT_transactions a i
               (TransactionBody.mk (Value description) (Value amount)
                  (Value category_id) (Value date_str)))
   = ((message "Invalid date format. Please use YYYY-MM-DD format.", 400), db))
  /\ (forall date, strptime date_str = Some date ->
      PrimFloat.is_nan amount = false -> int64 category_id = true ->
      response db (PUT_transactions a i
                     (TransactionBody.mk (Value description) (Value amount)
                        (Value category_id) (Value date_str)))
      = (message "Transaction updated successfully", 200)
      /\ find (fun x => Transaction.id x =? i)
           (transactions
              (after db (PUT_transactions a i
                           (TransactionBody.mk (Value description) (Value amount)
                              (Value category_id) (Value date_str)))))
         = Some (Transaction.mk i description (sqlite_real amount) category_id date)
      /\ forall j, j <> i ->
           find (fun x => Transaction.id x =? j)
             (transactions
                (after db (PUT_transactions a i
                             (TransactionBody.mk (Value description) (Value amount)
                                (Value category_id) (Value date_str)))))
           = find (fun x => Transaction.id x =? j) (transactions db))
  /\ (forall date, strptime date_str = Some date ->
      PrimFloat.is_nan amount = true \/ int64 category_id = false ->
      snd (response db (PUT_transactions a i
                          (TransactionBody.mk (Value description) (Value amount)
                             (Value category_id) (Value date_str)))) = 500
      /\ after db (PUT_transactions a i
                     (TransactionBody.mk (Value description) (Value amount)
                        (Value category_id) (Value date_str))) = db).
Proof.
  intros Ha Hf. destruct (find_key_some _ _ _ _ Hf) as [Hi _].
  split; [| split].
  - intros Hp. rewrite (serve_put_transaction db a i t) by assumption.
    now rewrite Hp.
  - intros date Hp Hnan Hcat. unfold response, after.
    rewrite (serve_put_transaction db a i t) by assumption.
    rewrite Hp, Hnan, Hcat.
    cbn [fst snd andb negb with_transactions transactions]. rewrite Hi.
    split; [reflexivity |]. split.
    + erewrite (find_update_same Transaction.id); [| reflexivity |].
      2:{ erewrite (find_update_same Transaction.id); [| reflexivity |].
          2:{ erewrite (find_update_same Transaction.id); [| reflexivity |].
              2:{ erewrite (find_update_same Transaction.id);
                    [| reflexivity | exact Hf]. reflexivity. }
              reflexivity. }
          reflexivity. }
      unfold set_date, set_category_id, set_amount, set_description. cbn.
      now rewrite Hi.
    + intros j Hj.
      rewrite !(find_update_other Transaction.id) by (reflexivity || exact Hj).
      reflexivity.
  - intros date Hp Hbad. unfold response, after.
    rewrite (serve_put_transaction db a i t) by assumption. rewrite Hp.
    destruct Hbad as [-> | ->]; [rewrite andb_false_r | cbn [andb]];
      split; reflexivity.
Qed.

Lemma serve_delete_transaction (db : DB) (a : option string) (i : Z) :
  verify_jwt_in_request a = None ->
  serve db (DELETE_transactions a i)
  = match find (fun x => Transaction.id x =? i) (transactions db) with
    | None => if int64 i then ((message "Transaction not found", 404), db)
              else ((server_error, 500), db)
    | Some t =>
        ((message "Transaction deleted successfully", 200),
         with_transactions db
           (filter (fun x => negb (Transaction.id x =? Transaction.id t))
                   (transactions db)))
    end.
Proof.
  intros Ha. unfold_service. rewrite Ha. cbn.
  destruct (find _ _); [reflexivity |]. destruct (int64 i); reflexivity.
Qed.

Lemma serve_delete_category (db : DB) (a : option string) (i : Z) :
  verify_jwt_in_request a = None ->
  serve db (DELETE_categories a i)
  = match find (fun x => Category.id x =? i) (categories db) with
    | None => if int64 i then ((message "Category not found", 404), db)
              else ((server_error, 500), db)
    | Some c =>
        ((message "Category deleted successfully", 200),
         with_categories db
           (filter (fun x => negb (Category.id x =? Category.id c))
                   (categories db)))
    end.
Proof.
  intros Ha. unfold_service. rewrite Ha. cbn.
  destruct (find _ _); [reflexivity |]. destruct (int64 i); reflexivity.
Qed.

(** C6: a first DELETE /transactions/{id} on an existing transaction
    answers 200 and removes it, the other rows and tables staying as they
    were, and a second DELETE on the same id answers 404 and changes
    nothing; the same for DELETE /categories/{id}.  The id is one the
    store can hold, of 64 bits. *)
Theorem delete_then_delete_again (db : DB) (a : option string) (i : Z) :
  verify_jwt_in_request a = None ->
  int64 i = true ->
  (forall t, find (fun x => Transaction.id x =? i) (transactions db) = Some t ->
     response db (DELETE_transactions a i)
     = (message "Transaction deleted successfully", 200)
     /\ find (fun x => Transaction.id x =? i)
          (transactions (after db (DELETE_transactions a i))) = None
     /\ (forall j, j <> i ->
         find (fun x => Transaction.id x =? j)
           (transactions (after db (DELETE_transactions a i)))
         = find (fun x => Transaction.id x =? j) (transactions db))
     /\ categories (after db (DELETE_transactions a i)) = categories db
     /\ users (after db (DELETE_transactions a i)) = users db
     /\ serve (after db (DELETE_transactions a i)) (DELETE_transactions a i)
        = ((message "Transaction not found", 404),
           after db (DELETE_transactions a i)))
  /\ (forall c, find (fun x => Category.id x =? i) (categories db) = Some c ->
     response db (DELETE_categories a i)
     = (message "Category deleted successfully", 200)
     /\ find (fun x => Category.id x =? i)
          (categories (after db (DELETE_categories a i))) = None
     /\ (forall j, j <> i ->
         find (fun x => Category.id x =? j)
           (categories (after db (DELETE_categories a i)))
         = find (fun x => Category.id x =? j) (categories db))
     /\ transactions (after db (DELETE_categories a i)) = transactions db
     /\ users (after db (DELETE_categories a i)) = users db
     /\ serve (after db (DELETE_categories a i)) (DELETE_categories a i)
        = ((message "Category not found", 404),
           after db (DELETE_categories a i))).
Proof.
  intros Ha Hi64. split.
  - intros t Hf. destruct (find_key_some _ _ _ _ Hf) as [Hi _].
    assert (E : serve db (DELETE_transactions a i)
                = ((message "Transaction deleted successfully", 200),
                   with_transactions db
                     (filter (fun x => negb (Transaction.id x =? i))
                             (transactions db)))).
    { rewrite serve_delete_transaction by exact Ha. now rewrite Hf, Hi. }
    unfold response, after. rewrite E. cbn [fst snd with_transactions transactions
                                            categories users].
    repeat split.
    + apply (find_filter_out Transaction.id).
    + intros j Hj. now apply (find_filter_other Transaction.id).
    + rewrite serve_delete_transaction by exact Ha.
      cbn [with_transactions transactions].
      now rewrite (find_filter_out Transaction.id), Hi64.
  - intros c Hf. destruct (find_key_some _ _ _ _ Hf) as [Hi _].
    assert (E : serve db (DELETE_categories a i)
                = ((message "Category deleted successfully", 200),
                   with_categories db
                     (filter (fun x => negb (Category.id x =? i))
                             (categories db)))).
    { rewrite serve_delete_category by exact Ha. now rewrite Hf, Hi. }
    unfold response, after. rewrite E. cbn [fst snd with_categories transactions
                                            categories users].
    repeat split.
    + apply (find_filter_out Category.id).
    + intros j Hj. now apply (find_filter_other Category.id).
    + rewrite serve_delete_category by exact Ha.
      cbn [with_categories categories].
      now rewrite (find_filter_out Category.id), Hi64.
Qed.

(** *** Register and login *)

Lemma serve_login (db : DB) (username password : string) :
  serve db (POST_login (CredentialsBody.mk (Value username) (Value password)))
  = match find (fun u => String.eqb (User.username u) username) (users db) with
    | None => ((message "Invalid username or password", 401), db)
    | Some u =>
        if check_password_hash (User.password u) password
        then ((JDict [("access_token", JStr (create_access_token (User.id u)))], 200), db)
        else ((message "Invalid username or password", 401), db)
    end.
Proof.
  unfold_service. cbn. destruct (find _ _) as [u |]; cbn; [| reflexivity].
  destruct (check_password_hash _ _); reflexivity.
Qed.

Lemma serve_register (db : DB) (salt : list byte) (username password : string) :
  serve db (POST_register salt (CredentialsBody.mk (Value username) (Value password)))
  = match find (fun u => String.eqb (User.username u) username) (users db) with
    | Some _ => ((message "Username already exists", 400), db)
    | None =>
        match password, hashpw salt password with
        | String _ _, Some pw_hash =>
            ((message "User registered successfully", 201),
             with_users db
               (users db
                ++ [User.mk (next_id (map User.id (users db))) username pw_hash]))
        | _, _ => ((server_error, 500), db)
        end
    end.
Proof.
  unfold_service. cbn. destruct (find _ _); [reflexivity |].
  destruct password; [reflexivity |]. cbn.
  destruct (hashpw _ _); reflexivity.
Qed.

Lemma find_username_snoc (l : list User.t) (u : User.t) :
  find (fun x => String.eqb (User.username x) (User.username u)) (l ++ [u]) <> None.
Proof.
  induction l as [| x l IH]; cbn.
  - now rewrite String.eqb_refl.
  - destruct (String.eqb _ _); [discriminate | exact IH].
Qed.

Lemma find_username_snoc_fresh (l : list User.t) (u : User.t) :
  find (fun x => String.eqb (User.username x) (User.username u)) l = None ->
  find (fun x => String.eqb (User.username x) (User.username u)) (l ++ [u]) = Some u.
Proof.
  induction l as [| x l IH]; cbn.
  - now rewrite String.eqb_refl.
  - destruct (String.eqb _ _); [discriminate | exact IH].
Qed.

(** C3: in every store, a login with a username no user has and a login
    with the username of a user and a password that does not verify
    against the stored hash get the same answer, 401 with the message
    "Invalid username or password", and change nothing; a login whose
    password verifies against the stored hash of the user gets 200 with
    the access token made for the id of that user. *)
Theorem login_refusals_are_uniform (db : DB) (username1 password1 : string)
    (username2 password2 : string) (u : User.t) :
  find (fun x => String.eqb (User.username x) username1) (users db) = None ->
  find (fun x => String.eqb (User.username x) username2) (users db) = Some u ->
  check_password_hash (User.password u) password2 = false ->
  serve db (POST_login (CredentialsBody.mk (Value username1) (Value password1)))
  = ((message "Invalid username or password", 401), db)
  /\ serve db (POST_login (CredentialsBody.mk (Value username2) (Value password2)))
     = ((message "Invalid username or password", 401), db)
  /\ forall password3,
       check_password_hash (User.password u) password3 = true ->
       serve db (POST_login (CredentialsBody.mk (Value username2) (Value password3)))
       = ((JDict [("access_token", JStr (create_access_token (User.id u)))], 200), db).
Proof.
  intros H1 H2 Hc. rewrite !serve_login, H1, H2, Hc. repeat split.
  intros password3 H3. now rewrite serve_login, H2, H3.
Qed.

(** C4, as amended: the first POST /register with a username no user
    has and a password that is not empty and that bcrypt hashes answers
    201 and adds one user, whose stored password is the bcrypt hash of
    the password; a second POST /register with the same username,
    whatever its password, answers 400 and leaves the store as it was;
    a POST /register with an empty password and a username no user has
    is answered 500 and adds no user. *)
Theorem register_twice (db : DB) (salt1 salt2 : list byte)
    (username password1 password2 : string) (pw_hash : list byte) :
  find (fun x => String.eqb (User.username x) username) (users db) = None ->
  password1 <> "" ->
  hashpw salt1 password1 = Some pw_hash ->
  response db (POST_register salt1
                 (CredentialsBody.mk (Value username) (Value password1)))
  = (message "User registered successfully", 201)
  /\ users (after db (POST_register salt1
                        (CredentialsBody.mk (Value username) (Value password1))))
     = (users db
        ++ [User.mk (next_id (map User.id (users db))) username pw_hash])%list
  /\ serve (after db (POST_register salt1
                        (CredentialsBody.mk (Value username) (Value password1))))
           (POST_register salt2
              (CredentialsBody.mk (Value username) (Value password2)))
     = ((message "Username already exists", 400),
        after db (POST_register salt1
                    (CredentialsBody.mk (Value username) (Value password1))))
  /\ snd (response db (POST_register salt1
                         (CredentialsBody.mk (Value username) (Value ""))))
     = 500
  /\ after db (POST_register salt1
                 (CredentialsBody.mk (Value username) (Value ""))) = db.
Proof.
  intros Hf Hne Hh. unfold response, after. rewrite !serve_register, Hf.
  destruct password1 as [| c1 password1]; [contradiction |]. rewrite Hh.
  cbn [fst snd with_users users]. repeat split.
  pose proof (find_username_snoc (users db)
                (User.mk (next_id (map User.id (users db))) username pw_hash)) as Hs.
  cbn [User.username] in Hs.
  destruct (find _ (users db ++ _)); [reflexivity | contradiction].
Qed.

(** With a bcrypt whose hashes verify against the password they were
    made from, a user who registered can log in. *)
Section Bcrypt.

Hypothesis check_generate : forall salt password pw_hash,
  hashpw salt password = Some pw_hash ->
  check_password_hash pw_hash password = true.

(** X18: when bcrypt verifies a password against every hash it made of
    it, a user who registered with a password that is not empty and
    that bcrypt hashes, under a username no user had, logs in with that
    username and password and gets the token for the id the
    registration gave. *)
Lemma register_then_login (db : DB) (salt : list byte) (username password : string)
    (pw_hash : list byte) :
  find (fun x => String.eqb (User.username x) username) (users db) = None ->
  password <> "" ->
  hashpw salt password = Some pw_hash ->
  response
    (after db (POST_register salt
                 (CredentialsBody.mk (Value username) (Value password))))
    (POST_login (CredentialsBody.mk (Value username) (Value password)))
  = (JDict [("access_token",
             JStr (create_access_token (next_id (map User.id (users db)))))], 200).
Proof.
  intros Hf Hne Hh. unfold response, after. rewrite serve_register, Hf.
  destruct password as [| c password]; [contradiction |]. rewrite Hh.
  cbn [snd]. rewrite serve_login. cbn [with_users users].
  pose proof (find_username_snoc_fresh (users db)
                (User.mk (next_id (map User.id (users db))) username pw_hash) Hf) as E.
  cbn [User.username] in E.
  rewrite E. cbn [User.password User.id]. now rewrite (check_generate _ _ _ Hh).
Qed.

End Bcrypt.

(** *** The two renderings of an amount *)

Lemma json_field_of_transaction (t : Transaction.t) (amount : json) :
  json_field "id" (Transaction_json t amount) = Some (JInt (Transaction.id t))
  /\ json_field "amount" (Transaction_json t amount) = Some amount.
Proof. split; reflexivity. Qed.

(** C7: for every transaction stored in a state the service reaches,
    GET /transactions/{id} returns a record whose "amount" is the stored
    number, and GET /transactions has an item with the same "id" whose
    "amount" is the currency text of that same stored number.  When the
    stored number is finite, with [c] its hundredths rounded to the
    nearest, that text is the rupiah text of [c]: a minus sign when the
    number is negative, "Rp", the rupiahs with a dot before every group
    of three digits, a comma and two digits; its digits read [c].  When
    it is not finite the text is "Rp" and "inf" or "nan" after the sign.
    The currency text of 15000.0 is "Rp15.000,00". *)
Theorem amount_renderings (db : DB) (a : option string) (t : Transaction.t) :
  reachable db ->
  verify_jwt_in_request a = None ->
  In t (transactions db) ->
  response db (GET_transactions a (Some (Transaction.id t)))
  = (Transaction_json t (JFloat (Transaction.amount t)), 200)
  /\ json_field "id" (Transaction_json t (JFloat (Transaction.amount t)))
     = Some (JInt (Transaction.id t))
  /\ json_field "amount" (Transaction_json t (JFloat (Transaction.amount t)))
     = Some (JFloat (Transaction.amount t))
  /\ (exists items item,
        response db (GET_transactions a None) = (JList items, 200)
        /\ In item items
        /\ item = Transaction_json t (JStr (currency (Transaction.amount t) true))
        /\ json_field "id" item = Some (JInt (Transaction.id t))
        /\ json_field "amount" item
           = Some (JStr (currency (Transaction.amount t) true)))
  /\ (forall c, cents (Transaction.amount t) = Some c ->
        0 <= c
        /\ currency (Transaction.amount t) true
           = rupiah (PrimFloat.ltb (Transaction.amount t) 0) c
        /\ shown_cents (currency (Transaction.amount t) true) = c)
  /\ (cents (Transaction.amount t) = None ->
      exists w, (w = "inf" \/ w = "nan")
                /\ currency (Transaction.amount t) true
                   = (if PrimFloat.ltb (Transaction.amount t) 0 then "-" else "")
                     ++ "Rp" ++ w)
  /\ currency 15000%float true = "Rp15.000,00".
Proof.
  intros Hr Ha Hin. apply reachable_wf in Hr. destruct Hr as ((Hn & Hpos) & _).
  split; [| split; [| split; [| split; [| split; [| split]]]]].
  - unfold response. rewrite serve_get_transaction; [| exact Ha |].
    + now rewrite (find_key_unique Transaction.id _ _ Hn Hin).
    + rewrite Forall_forall in Hpos.
      specialize (Hpos (Transaction.id t) (in_map _ _ _ Hin)). lia.
  - apply json_field_of_transaction.
  - apply json_field_of_transaction.
  - eexists. eexists. unfold response. rewrite serve_list_transactions by exact Ha.
    split; [reflexivity |]. split; [| split; [reflexivity |]].
    + apply (in_map (fun t => Transaction_json t
                                 (JStr (currency (Transaction.amount t) true)))).
      exact Hin.
    + apply json_field_of_transaction.
  - intros c Hc. destruct (format_cents _ _ Hc) as [H0 _].
    split; [exact H0 |]. rewrite (currency_rupiah _ _ Hc).
    split; [reflexivity | now apply shown_cents_rupiah].
  - apply currency_not_finite.
  - vm_compute. reflexivity.
Qed.

(** *** Id 0 on the single-item routes *)

Lemma serve_list_categories (db : DB) (a : option string) :
  verify_jwt_in_request a = None ->
  serve db (GET_categories a None)
  = ((JList (map Category_json (categories db)), 200), db).
Proof. intros Ha. unfold_service. rewrite Ha. reflexivity. Qed.

(** C10: GET /transactions/0 and GET /categories/0 are answered as the
    routes without an id are: with the listing of the whole table (for
    transactions, with the amounts as currency text) and 200, never with
    404. *)
Theorem get_id_zero_lists (db : DB) (a : option string) :
  verify_jwt_in_request a = None ->
  serve db (GET_transactions a (Some 0))
  = ((JList (map (fun t => Transaction_json t
                              (JStr (currency (Transaction.amount t) true)))
                 (transactions db)), 200), db)
  /\ serve db (GET_categories a (Some 0))
     = ((JList (map Category_json (categories db)), 200), db)
  /\ serve db (GET_transactions a (Some 0)) = serve db (GET_transactions a None)
  /\ serve db (GET_categories a (Some 0)) = serve db (GET_categories a None).
Proof.
  intros Ha.
  rewrite serve_list_transactions, serve_list_categories by exact Ha.
  repeat split; unfold_service; rewrite Ha; reflexivity.
Qed.

(** *** Category names *)

Lemma serve_post_category (db : DB) (a : option string) (name : field string) :
  verify_jwt_in_request a = None ->
  serve db (POST_categories a (CategoryBody.mk name))
  = match name with
    | Absent =>
        ((JDict [("message", JDict [("name", JStr "Name is required")])], 400), db)
    | Null => ((server_error, 500), db)
    | Value n =>
        ((message "Category created successfully", 201),
         with_categories db
           (categories db
            ++ [Category.mk (next_id (map Category.id (categories db))) n]))
    end.
Proof. intros Ha. unfold_service. rewrite Ha. destruct name; reflexivity. Qed.

Lemma serve_put_category (db : DB) (a : option string) (i : Z) (c : Category.t)
    (name : field string) :
  verify_jwt_in_request a = None ->
  find (fun x => Category.id x =? i) (categories db) = Some c ->
  serve db (PUT_categories a i (CategoryBody.mk name))
  = match name with
    | Absent =>
        ((JDict [("message", JDict [("name", JStr "Name is required")])], 400), db)
    | Null => ((server_error, 500), db)
    | Value n =>
        ((message "Category updated successfully", 200),
         with_categories db
           (map (fun x => if Category.id x =? Category.id c then set_name n x else x)
                (categories db)))
    end.
Proof.
  intros Ha Hf. unfold_service. rewrite Ha. cbn. rewrite Hf.
  destruct name; reflexivity.
Qed.

Lemma Forall_weaken_app {A} (f : A -> string) (S T : list string) (l : list A) :
  Forall (fun c => In (f c) S) l -> Forall (fun c => In (f c) (S ++ T)) l.
Proof.
  intros H. eapply Forall_impl; [| exact H]. intros c Hc. apply in_or_app. now left.
Qed.

Lemma after_names (db : DB) (req : Request) (S : list string) :
  Forall (fun c => In (Category.name c) S) (categories db) ->
  Forall (fun c => In (Category.name c) (S ++ supplied_name req))
         (categories (after db req)).
Proof.
  intros H.
  destruct req; destruct_bodies; unfold_service; follow_handler;
    cbn [categories supplied_name];
    try (now apply Forall_weaken_app).
  - (* POST /categories *)
    apply Forall_app. split; [now apply Forall_weaken_app |].
    constructor; [| constructor]. cbn. apply in_or_app. right. now left.
  - (* PUT /categories/{id} *)
    apply Forall_forall. intros x Hx. apply in_map_iff in Hx as (y & <- & Hy).
    rewrite Forall_forall in H.
    destruct (Category.id y =? _); cbn.
    + apply in_or_app. right. now left.
    + apply in_or_app. left. now apply H.
  - (* DELETE /categories/{id} *)
    apply Forall_forall. intros x Hx. apply filter_In in Hx as [Hx _].
    rewrite Forall_forall in H. apply in_or_app. left. now apply H.
Qed.

Lemma run_names (reqs : list Request) (db : DB) (S : list string) :
  Forall (fun c => In (Category.name c) S) (categories db) ->
  Forall (fun c => In (Category.name c) (S ++ supplied_names reqs))
         (categories (run db reqs)).
Proof.
  revert db S. induction reqs as [| req reqs IH]; intros db S H; cbn.
  - rewrite app_nil_r. exact H.
  - rewrite app_assoc. apply IH. now apply after_names.
Qed.

(** C8, as amended: in every state reached from the empty store, every
    stored category has a name that the body of a POST /categories or of
    a PUT /categories/{id} supplied; POST /categories stores the name of
    the body as it is and PUT /categories/{id} on an existing id replaces
    the name by the name of the body as it is, the empty text included;
    a body without a name is answered 400 and a body whose name is null
    is answered 500, and neither changes the store. *)
Theorem category_names_are_supplied (reqs : list Request) :
  Forall (fun c => In (Category.name c) (supplied_names reqs))
         (categories (run empty_db reqs))
  /\ (forall db a name,
       verify_jwt_in_request a = None ->
       serve db (POST_categories a (CategoryBody.mk (Value name)))
       = ((message "Category created successfully", 201),
          with_categories db
            (categories db
             ++ [Category.mk (next_id (map Category.id (categories db))) name]))
       /\ snd (response db (POST_categories a (CategoryBody.mk Absent))) = 400
       /\ after db (POST_categories a (CategoryBody.mk Absent)) = db
       /\ snd (response db (POST_categories a (CategoryBody.mk Null))) = 500
       /\ after db (POST_categories a (CategoryBody.mk Null)) = db)
  /\ (forall db a i c name,
       verify_jwt_in_request a = None ->
       find (fun x => Category.id x =? i) (categories db) = Some c ->
       response db (PUT_categories a i (CategoryBody.mk (Value name)))
       = (message "Category updated successfully", 200)
       /\ find (fun x => Category.id x =? i)
            (categories (after db (PUT_categories a i (CategoryBody.mk (Value name)))))
          = Some (Category.mk i name)
       /\ snd (response db (PUT_categories a i (CategoryBody.mk Absent))) = 400
       /\ after db (PUT_categories a i (CategoryBody.mk Absent)) = db
       /\ snd (response db (PUT_categories a i (CategoryBody.mk Null))) = 500
       /\ after db (PUT_categories a i (CategoryBody.mk Null)) = db).
Proof.
  split; [| split].
  - apply (run_names reqs empty_db []). constructor.
  - intros db a name Ha. unfold response, after.
    rewrite !serve_post_category by exact Ha. repeat split.
  - intros db a i c name Ha Hf. destruct (find_key_some _ _ _ _ Hf) as [Hi _].
    unfold response, after.
    rewrite !(serve_put_category db a i c) by assumption.
    cbn [fst snd with_categories categories]. rewrite Hi. repeat split.
    rewrite (find_update_same Category.id (set_name name) _ i c);
      [| reflexivity | exact Hf].
    unfold set_name. now rewrite Hi.
Qed.

(* ================================================================= *)
(** ** Further properties of the handlers *)

(** *** The token check comes first *)

(** X1: a request to a protected route whose token the extension refuses
    is answered with the refusal of the extension and changes nothing,
    whatever its id and body are: no protected handler runs. *)
Theorem refused_request_changes_nothing (db : DB) (req : Request)
    (a : option string) (refusal : Response) :
  authorization_of req = Some a ->
  verify_jwt_in_request a = Some refusal ->
  serve db req = (refusal, db).
Proof.
  intros Hreq Ha.
  destruct req; cbn in Hreq; try discriminate Hreq;
    injection Hreq as ->; unfold_service; rewrite Ha; reflexivity.
Qed.

(** *** Only an answer 200 or 201 changes the store *)

(** X2: whatever the request, when the status of the answer is neither
    200 nor 201 the store is as it was before the request. *)
Theorem failed_request_changes_nothing (db : DB) (req : Request) :
  snd (response db req) <> 200 ->
  snd (response db req) <> 201 ->
  after db req = db.
Proof.
  destruct req; destruct_bodies; unfold_service; follow_handler;
    intros H200 H201; try reflexivity; exfalso;
    first [ now apply H200 | now apply H201 ].
Qed.

(** X3: the GET handlers and login never change the store, whatever
    they answer. *)
Theorem reads_change_nothing (db : DB) (a : option string) (i : option Z)
    (body : CredentialsBody.t) :
  after db (GET_transactions a i) = db
  /\ after db (GET_categories a i) = db
  /\ after db (POST_login body) = db.
Proof.
  split; [| split]; destruct_bodies; unfold_service; follow_handler; reflexivity.
Qed.

(** *** The order of the checks in [put] and [post] *)

(** X4: a PUT on an id of 64 bits that the table does not have answers
    404 and stores nothing, whatever the body is, a body with missing
    fields or a malformed date included: the lookup comes before the
    parsing.  On an id of more than 64 bits the lookup fails: the answer
    is 500 and nothing is stored. *)
Theorem put_unknown_id_is_404 (db : DB) (a : option string) (i : Z)
    (tbody : TransactionBody.t) (cbody : CategoryBody.t) :
  verify_jwt_in_request a = None ->
  (find (fun x => Transaction.id x =? i) (transactions db) = None ->
   (int64 i = true ->
    serve db (PUT_transactions a i tbody)
    = ((message "Transaction not found", 404), db))
   /\ (int64 i = false ->
       snd (response db (PUT_transactions a i tbody)) = 500
       /\ after db (PUT_transactions a i tbody) = db))
  /\ (find (fun x => Category.id x =? i) (categories db) = None ->
      (int64 i = true ->
       serve db (PUT_categories a i cbody)
       = ((message "Category not found", 404), db))
      /\ (int64 i = false ->
          snd (response db (PUT_categories a i cbody)) = 500
          /\ after db (PUT_categories a i cbody) = db)).
Proof.
  intros Ha.
  split; intros Hf; (split; intros Hi); unfold_service; rewrite Ha; cbn;
    rewrite Hf, Hi; try split; reflexivity.
Qed.

(** X5: a transaction body that lacks one of its four fields is answered
    400 and nothing is stored, by POST and by PUT on an existing id,
    whatever the date text is; the answer names the first missing field
    in the order description, amount, category_id, date.  A body that
    has the four fields, one of them null, and whose date is null or a
    text [strptime] accepts, is answered 500 and nothing is stored. *)
Theorem transaction_body_missing_field (db : DB) (a : option string)
    (body : TransactionBody.t) :
  verify_jwt_in_request a = None ->
  (lacks_field body = true ->
   (exists field help,
      response db (POST_transactions a body)
      = (JDict [("message", JDict [(field, JStr help)])], 400)
      /\ (field = "description" /\ TransactionBody.description body = Absent
          \/ field = "amount" /\ TransactionBody.description body <> Absent
             /\ TransactionBody.amount body = Absent
          \/ field = "category_id" /\ TransactionBody.description body <> Absent
             /\ TransactionBody.amount body <> Absent
             /\ TransactionBody.category_id body = Absent
          \/ field = "date" /\ TransactionBody.description body <> Absent
             /\ TransactionBody.amount body <> Absent
             /\ TransactionBody.category_id body <> Absent
             /\ TransactionBody.date body = Absent))
   /\ after db (POST_transactions a body) = db
   /\ forall i t,
        find (fun x => Transaction.id x =? i) (transactions db) = Some t ->
        snd (response db (PUT_transactions a i body)) = 400
        /\ after db (PUT_transactions a i body) = db)
  /\ (lacks_field body = false ->
      has_null body = true ->
      (forall date_str, TransactionBody.date body = Value date_str ->
                        strptime date_str <> None) ->
      snd (response db (POST_transactions a body)) = 500
      /\ after db (POST_transactions a body) = db
      /\ forall i t,
           find (fun x => Transaction.id x =? i) (transactions db) = Some t ->
           snd (response db (PUT_transactions a i body)) = 500
           /\ after db (PUT_transactions a i body) = db).
Proof.
  intros Ha. split.
  - intros Hmiss.
    destruct body as [[| | d] [| | am] [| | c] [| | ds]]; cbn in Hmiss;
      try discriminate Hmiss;
      (split; [| split; [| intros i t Hf]]);
      unfold_service; rewrite Ha; cbn; rewrite ?Hf; cbn;
      try (split; reflexivity); try reflexivity;
      do 2 eexists; (split; [reflexivity |]); cbn;
      first [ left; split; [reflexivity | reflexivity]
            | right; left; repeat split; discriminate
            | right; right; left; repeat split; discriminate
            | right; right; right; repeat split; discriminate ].
  - intros Hmiss Hnull Hdate.
    destruct body as [[| | d] [| | am] [| | c] [| | ds]]; cbn in Hmiss, Hnull;
      try discriminate Hmiss; try discriminate Hnull;
      try (specialize (Hdate ds eq_refl); destruct (strptime ds) as [date |] eqn:Hp;
           [| contradiction]);
      (split; [| split; [| intros i t Hf]]);
      unfold_service; rewrite Ha; cbn; rewrite ?Hf; cbn;
      repeat match goal with
             | |- context [int64 ?x] => destruct (int64 x); cbn
             | |- context [PrimFloat.is_nan ?x] => destruct (PrimFloat.is_nan x); cbn
             end;
      rewrite ?Hp; try split; reflexivity.
Qed.

(** X6: a register or login body without a username or without a
    password is answered 400 and nothing is stored; login answers 400
    and not 401, whether the user exists or not.  With a null username
    and a password, null or not, login answers 401 and register 500,
    and nothing is stored. *)
Theorem credentials_missing_field (db : DB) (salt : list byte)
    (body : CredentialsBody.t) :
  (CredentialsBody.username body = Absent \/ CredentialsBody.password body = Absent ->
   snd (response db (POST_register salt body)) = 400
   /\ after db (POST_register salt body) = db
   /\ snd (response db (POST_login body)) = 400
   /\ after db (POST_login body) = db)
  /\ (CredentialsBody.username body = Null ->
      CredentialsBody.password body <> Absent ->
      serve db (POST_login body)
      = ((message "Invalid username or password", 401), db)
      /\ snd (response db (POST_register salt body)) = 500
      /\ after db (POST_register salt body) = db).
Proof.
  split.
  - intros Hmiss. destruct body as [[| | u] [| | pw]]; cbn in Hmiss;
      try (exfalso; destruct Hmiss as [H | H]; discriminate H);
      repeat split; reflexivity.
  - intros Hu Hp. destruct body as [[| | u] [| | pw]]; cbn in Hu, Hp;
      try discriminate Hu; try contradiction;
      unfold_service; follow_handler; repeat split; reflexivity.
Qed.

(** *** Keys and usernames name one row *)

Lemma NoDup_map_same {A B} (f : A -> B) (l : list A) (x y : A) :
  NoDup (map f l) -> In x l -> In y l -> f x = f y -> x = y.
Proof.
  induction l as [| z l IH]; cbn; [tauto |].
  intros Hn Hx Hy E. inversion Hn as [| ? ? Hz Hn']; subst.
  destruct Hx as [-> | Hx], Hy as [-> | Hy]; auto.
  - exfalso. apply Hz. rewrite E. now apply in_map.
  - exfalso. apply Hz. rewrite <- E. now apply in_map.
Qed.

(** X7: in every state the service reaches, two rows of a table with the
    same id are the same row, every id is at least 1, and two users with
    the same username are the same user. *)
Theorem reachable_rows_have_distinct_keys (db : DB) :
  reachable db ->
  (forall t1 t2, In t1 (transactions db) -> In t2 (transactions db) ->
                 Transaction.id t1 = Transaction.id t2 -> t1 = t2)
  /\ (forall c1 c2, In c1 (categories db) -> In c2 (categories db) ->
                    Category.id c1 = Category.id c2 -> c1 = c2)
  /\ (forall u1 u2, In u1 (users db) -> In u2 (users db) ->
                    User.id u1 = User.id u2 \/ User.username u1 = User.username u2 ->
                    u1 = u2)
  /\ (forall t, In t (transactions db) -> 1 <= Transaction.id t)
  /\ (forall c, In c (categories db) -> 1 <= Category.id c)
  /\ (forall u, In u (users db) -> 1 <= User.id u).
Proof.
  intros Hr. apply reachable_wf in Hr.
  destruct Hr as ((Nt & Pt) & (Nc & Pc) & (Nu & Pu) & Nn).
  rewrite Forall_forall in Pt, Pc, Pu.
  repeat split.
  - intros t1 t2. now apply NoDup_map_same.
  - intros c1 c2. now apply NoDup_map_same.
  - intros u1 u2 H1 H2 [E | E]; [now apply (NoDup_map_same User.id (users db)) |
                                 now apply (NoDup_map_same User.username (users db))].
  - intros t Ht. apply Pt. now apply in_map.
  - intros c Hc. apply Pc. now apply in_map.
  - intros u Hu. apply Pu. now apply in_map.
Qed.

(** X15: in every state the service reaches no row has id 0, so PUT and
    DELETE on id 0 answer 404 and change nothing, for transactions and
    for categories (GET on id 0 lists the table instead). *)
Theorem id_zero_is_not_found (db : DB) (a : option string)
    (tbody : TransactionBody.t) (cbody : CategoryBody.t) :
  reachable db ->
  verify_jwt_in_request a = None ->
  serve db (PUT_transactions a 0 tbody) = ((message "Transaction not found", 404), db)
  /\ serve db (DELETE_transactions a 0) = ((message "Transaction not found", 404), db)
  /\ serve db (PUT_categories a 0 cbody) = ((message "Category not found", 404), db)
  /\ serve db (DELETE_categories a 0) = ((message "Category not found", 404), db).
Proof.
  intros Hr Ha. apply reachable_wf in Hr.
  destruct Hr as ((_ & Pt) & (_ & Pc) & _).
  rewrite Forall_forall in Pt, Pc.
  assert (Ft : find (fun x => Transaction.id x =? 0) (transactions db) = None).
  { destruct (find (fun x => Transaction.id x =? 0) (transactions db))
      as [t |] eqn:E; [| reflexivity].
    apply find_key_some in E as [E Hin].
    specialize (Pt _ (in_map Transaction.id _ _ Hin)). lia. }
  assert (Fc : find (fun x => Category.id x =? 0) (categories db) = None).
  { destruct (find (fun x => Category.id x =? 0) (categories db))
      as [c |] eqn:E; [| reflexivity].
    apply find_key_some in E as [E Hin].
    specialize (Pc _ (in_map Category.id _ _ Hin)). lia. }
  repeat split; unfold_service; rewrite Ha; cbn; rewrite ?Ft, ?Fc; reflexivity.
Qed.

(** *** Create, then read or delete *)

Lemma serve_get_category (db : DB) (a : option string) (i : Z) :
  verify_jwt_in_request a = None -> i <> 0 ->
  serve db (GET_categories a (Some i))
  = match find (fun c => Category.id c =? i) (categories db) with
    | Some c => ((Category_json c, 200), db)
    | None => if int64 i then ((message "Category not found", 404), db)
              else ((server_error, 500), db)
    end.
Proof.
  intros Ha Hi. unfold_service. rewrite Ha. cbn.
  apply Z.eqb_neq in Hi. rewrite Hi. cbn.
  destruct (find _ _); [reflexivity |]. destruct (int64 i); reflexivity.
Qed.

(** X10: in every state the service reaches, POST /categories with a name
    answers 201 and creates one category, and GET /categories/{id} on the
    id of that category returns that id and the posted name. *)
Theorem post_then_get_category (db : DB) (a : option string) (name : string) :
  reachable db ->
  verify_jwt_in_request a = None ->
  exists i,
    response db (POST_categories a (CategoryBody.mk (Value name)))
    = (message "Category created successfully", 201)
    /\ map Category.id
         (categories (after db (POST_categories a (CategoryBody.mk (Value name)))))
       = (map Category.id (categories db) ++ [i])%list
    /\ response (after db (POST_categories a (CategoryBody.mk (Value name))))
         (GET_categories a (Some i))
       = (JDict [("id", JInt i); ("name", JStr name)], 200).
Proof.
  intros Hr Ha. apply reachable_wf in Hr. destruct Hr as (_ & (_ & Pc) & _).
  exists (next_id (map Category.id (categories db))).
  unfold response, after. rewrite serve_post_category by exact Ha.
  cbn [fst snd with_categories categories].
  split; [reflexivity |]. split; [now rewrite map_app |].
  pose proof (next_id_positive _ Pc) as Hpos.
  rewrite serve_get_category; [| exact Ha | lia].
  cbn [with_categories categories].
  pose proof (find_snoc_fresh Category.id (categories db)
                (Category.mk (next_id (map Category.id (categories db))) name)
                (next_id_fresh _)) as F.
  cbn [Category.id] in F. rewrite F. reflexivity.
Qed.

Lemma filter_out_fresh {A} (key : A -> Z) (l : list A) (x : A) :
  ~ In (key x) (map key l) ->
  filter (fun a => negb (key a =? key x)) (l ++ [x]) = l.
Proof.
  induction l as [| a l IH]; cbn; intros H.
  - now rewrite Z.eqb_refl.
  - destruct (key a =? key x) eqn:E; [apply Z.eqb_eq in E; tauto |].
    cbn. f_equal. apply IH. tauto.
Qed.

(** A POST /transactions is answered 201 only for a body with its four
    fields, a date [strptime] accepts and values the store takes. *)
Lemma post_transaction_201 (db : DB) (a : option string) (body : TransactionBody.t) :
  verify_jwt_in_request a = None ->
  snd (response db (POST_transactions a body)) = 201 ->
  exists description amount category_id date_str date,
    body = TransactionBody.mk (Value description) (Value amount)
             (Value category_id) (Value date_str)
    /\ strptime date_str = Some date
    /\ PrimFloat.is_nan amount = false
    /\ int64 category_id = true.
Proof.
  intros Ha.
  destruct body as [[| | d] [| | am] [| | c] [| | ds]];
    unfold_service; rewrite Ha; cbn;
    repeat match goal with
           | |- context [strptime ?x] => destruct (strptime x) eqn:?; cbn
           | |- context [int64 ?x] => destruct (int64 x) eqn:?; cbn
           | |- context [PrimFloat.is_nan ?x] =>
               destruct (PrimFloat.is_nan x) eqn:?; cbn
           end;
    intros H; try discriminate H.
  do 5 eexists. split; [reflexivity |]. split; [eassumption |]. now split.
Qed.

(** X11: a POST /transactions that succeeds, answered 201, followed by a
    DELETE on the id of the created record answers 200 and gives back
    the store as it was before the POST. *)
Theorem post_then_delete_restores (db : DB) (a : option string)
    (body : TransactionBody.t) :
  verify_jwt_in_request a = None ->
  snd (response db (POST_transactions a body)) = 201 ->
  serve (after db (POST_transactions a body))
        (DELETE_transactions a (next_id (map Transaction.id (transactions db))))
  = ((message "Transaction deleted successfully", 200), db).
Proof.
  intros Ha H201.
  destruct (post_transaction_201 db a body Ha H201)
    as (description & amount & category_id & date_str & date & -> & Hp & Hnan & Hcat).
  unfold after.
  rewrite serve_post_transaction by exact Ha. rewrite Hp, Hnan, Hcat.
  cbn [snd andb negb].
  rewrite serve_delete_transaction by exact Ha.
  cbn [with_transactions transactions]. rewrite created_found.
  unfold with_transactions. cbn [transactions categories users].
  rewrite (filter_out_fresh Transaction.id (transactions db)
             (created db description amount category_id date))
    by apply next_id_fresh.
  destruct db; reflexivity.
Qed.

Lemma find_snoc_old {A} (p : A -> bool) (l : list A) (x y : A) :
  find p l = Some y -> find p (l ++ [x]) = Some y.
Proof.
  induction l as [| a l IH]; cbn; [discriminate |].
  destruct (p a); [trivial | exact IH].
Qed.

(** X12: a POST never changes or hides a record that exists: every id
    that named a transaction before a POST /transactions names the same
    transaction after it, and the same for POST /categories. *)
Theorem post_keeps_existing_rows (db : DB) (a : option string)
    (tbody : TransactionBody.t) (cbody : CategoryBody.t) (i : Z) :
  (forall t, find (fun x => Transaction.id x =? i) (transactions db) = Some t ->
     find (fun x => Transaction.id x =? i)
       (transactions (after db (POST_transactions a tbody))) = Some t)
  /\ (forall c, find (fun x => Category.id x =? i) (categories db) = Some c ->
     find (fun x => Category.id x =? i)
       (categories (after db (POST_categories a cbody))) = Some c).
Proof.
  split; intros r Hf; destruct_bodies; unfold_service;
    destruct (verify_jwt_in_request a); cbn; try exact Hf;
    repeat match goal with
           | |- context [strptime ?x] => destruct (strptime x) eqn:?; cbn
           | |- context [int64 ?x] => destruct (int64 x) eqn:?; cbn
           | |- context [PrimFloat.is_nan ?x] =>
               destruct (PrimFloat.is_nan x) eqn:?; cbn
           end;
    first [ exact Hf | now apply find_snoc_old ].
Qed.

(** *** Stored rows *)

Lemma Forall_update {A} (P : A -> Prop) (key : A -> Z) (f : A -> A) (i : Z)
    (l : list A) :
  (forall x, P x -> P (f x)) -> Forall P l ->
  Forall P (map (fun x => if key x =? i then f x else x) l).
Proof.
  intros Hf H. induction H as [| x l Hx _ IH]; cbn; constructor; [| exact IH].
  destruct (key x =? i); auto.
Qed.

Lemma sqlite_real_number (x : float) :
  PrimFloat.is_nan x = false ->
  PrimFloat.is_nan (sqlite_real x) = false
  /\ sqlite_real (sqlite_real x) = sqlite_real x.
Proof.
  intros Hx. unfold sqlite_real.
  destruct (PrimFloat.eqb x 0) eqn:E.
  - split; reflexivity.
  - rewrite E. now split.
Qed.

Lemma after_rows_ok (db : DB) (req : Request) : rows_ok db -> rows_ok (after db req).
Proof.
  unfold rows_ok. intros H.
  destruct req; destruct_bodies; unfold_service; follow_handler;
    cbn [transactions]; try exact H.
  - (* POST /transactions *)
    apply Forall_app. split; [exact H |]. constructor; [| constructor].
    unfold row_ok. cbn.
    match goal with
    | Hn : PrimFloat.is_nan ?x = false |- _ =>
        destruct (sqlite_real_number x Hn) as [N1 N2]
    end.
    split; [eapply strptime_date_ok; eassumption |]. now repeat split.
  - (* PUT /transactions/{id} *)
    match goal with
    | Hn : PrimFloat.is_nan ?x = false |- _ =>
        destruct (sqlite_real_number x Hn) as [N1 N2]
    end.
    apply Forall_update.
    { intros x (_ & Q2 & Q3 & Q4). unfold row_ok. cbn.
      split; [eapply strptime_date_ok; eassumption | now repeat split]. }
    apply Forall_update.
    { intros x (Q1 & Q2 & Q3 & _). unfold row_ok. cbn. now repeat split. }
    apply Forall_update.
    { intros x (Q1 & _ & _ & Q4). unfold row_ok. cbn. now repeat split. }
    apply Forall_update; [intros x Hx; exact Hx | exact H].
  - (* DELETE /transactions/{id} *)
    apply Forall_forall. intros x Hx. apply filter_In in Hx as [Hx _].
    rewrite Forall_forall in H. now apply H.
Qed.

Lemma reachable_rows_ok (db : DB) : reachable db -> rows_ok db.
Proof.
  intros [reqs ->]. unfold run.
  assert (G : forall db0, rows_ok db0 -> rows_ok (fold_left after reqs db0)).
  { induction reqs as [| req reqs IH]; intros db0 H0; cbn; [exact H0 |].
    apply IH. now apply after_rows_ok. }
  apply G. constructor.
Qed.

(** X8: in every state the service reaches, every stored transaction
    holds a day of the calendar, an amount that is a number and a
    category id of 64 bits; for a year from 1000 on, the date text GET
    shows is in the strict form YYYY-MM-DD and POST and PUT read it back
    as the stored date; for a year below 1000 they refuse the text GET
    shows, which has fewer than four digits of year. *)
Theorem stored_dates_are_calendar_days (db : DB) (t : Transaction.t) :
  reachable db ->
  In t (transactions db) ->
  row_ok t
  /\ (1000 <= Date.year (Transaction.date t) ->
      is_YYYY_MM_DD (strftime (Transaction.date t)) = true
      /\ strptime (strftime (Transaction.date t)) = Some (Transaction.date t))
  /\ (Date.year (Transaction.date t) < 1000 ->
      strptime (strftime (Transaction.date t)) = None).
Proof.
  intros Hr Hin. apply reachable_rows_ok in Hr. unfold rows_ok in Hr.
  rewrite Forall_forall in Hr. specialize (Hr t Hin).
  split; [exact Hr |]. destruct Hr as (Hd & _).
  pose proof (date_ok_bounds _ _ _ Hd) as (By & _).
  split.
  - intros Hy. rewrite strftime_iso by lia. now apply strptime_iso.
  - intros Hy. apply strptime_short_year_text. lia.
Qed.

Lemma update_same {A} (key : A -> Z) (f : A -> A) (i : Z) (l : list A) :
  (forall x, In x l -> key x = i -> f x = x) ->
  map (fun x => if key x =? i then f x else x) l = l.
Proof.
  intros Hf. induction l as [| a l IH]; cbn; [reflexivity |].
  rewrite IH by (intros x Hx; apply Hf; now right).
  destruct (key a =? i) eqn:E; [| reflexivity].
  apply Z.eqb_eq in E. rewrite Hf; [reflexivity | now left | exact E].
Qed.

(** X9: in every state the service reaches, sending a stored transaction
    back by PUT with the fields GET /transactions/{id} shows for it
    answers 200 and leaves the store as it was when the year of its date
    is 1000 or later; for an earlier year the date text GET shows is
    refused, with 400, and the store is as it was. *)
Theorem put_back_what_get_shows (db : DB) (a : option string) (t : Transaction.t) :
  reachable db ->
  verify_jwt_in_request a = None ->
  In t (transactions db) ->
  (1000 <= Date.year (Transaction.date t) ->
   serve db (PUT_transactions a (Transaction.id t) (body_of t))
   = ((message "Transaction updated successfully", 200), db))
  /\ (Date.year (Transaction.date t) < 1000 ->
      serve db (PUT_transactions a (Transaction.id t) (body_of t))
      = ((message "Invalid date format. Please use YYYY-MM-DD format.", 400), db)).
Proof.
  intros Hr Ha Hin.
  pose proof (reachable_rows_ok _ Hr) as Hd. unfold rows_ok in Hd.
  rewrite Forall_forall in Hd. specialize (Hd t Hin).
  destruct Hd as (Hd & Hnan & Hreal & Hcat).
  pose proof (date_ok_bounds _ _ _ Hd) as (By & _).
  apply reachable_wf in Hr. destruct Hr as ((Nt & _) & _).
  pose proof (find_key_unique Transaction.id _ _ Nt Hin) as Hf.
  unfold body_of.
  rewrite (serve_put_transaction db a (Transaction.id t) t) by assumption.
  split; intros Hy.
  - rewrite strftime_iso by lia.
    destruct (strptime_iso _ Hd) as [_ Hp]. rewrite Hp, Hnan, Hcat, Hreal.
    cbn [andb negb]. f_equal.
    assert (U : forall f, f t = t ->
              map (fun x => if Transaction.id x =? Transaction.id t then f x else x)
                  (transactions db) = transactions db).
    { intros f Hft. apply update_same. intros x Hx E.
      now rewrite (NoDup_map_same Transaction.id _ x t Nt Hx Hin E). }
    rewrite (U (set_description (Transaction.description t)))
      by (destruct t; reflexivity).
    rewrite (U (set_amount (Transaction.amount t))) by (destruct t; reflexivity).
    rewrite (U (set_category_id (Transaction.category_id t)))
      by (destruct t; reflexivity).
    rewrite (U (set_date (Transaction.date t))) by (destruct t; reflexivity).
    destruct db; reflexivity.
  - rewrite strptime_short_year_text by lia. reflexivity.
Qed.

(** *** What a request leaves alone *)

(** X14: a request changes at most the table of its own resource: the
    transaction routes leave categories and users as they were, the
    category routes leave transactions and users as they were, register
    and login leave transactions and categories as they were. *)
Theorem resources_change_only_their_table (db : DB) (req : Request) :
  (is_transaction_request req = true ->
   categories (after db req) = categories db /\ users (after db req) = users db)
  /\ (is_category_request req = true ->
      transactions (after db req) = transactions db
      /\ users (after db req) = users db)
  /\ (is_account_request req = true ->
      transactions (after db req) = transactions db
      /\ categories (after db req) = categories db).
Proof.
  split; [| split]; intros Hreq; destruct req; try discriminate Hreq;
    destruct_bodies; unfold_service; follow_handler; split; reflexivity.
Qed.

Lemma after_users_grow (db : DB) (req : Request) :
  exists l, users (after db req) = (users db ++ l)%list.
Proof.
  destruct req; destruct_bodies; unfold_service; follow_handler;
    cbn [users];
    first [ now exists []; rewrite app_nil_r | eexists; reflexivity ].
Qed.

Lemma run_users_grow (db : DB) (reqs : list Request) :
  exists l, users (run db reqs) = (users db ++ l)%list.
Proof.
  revert db. induction reqs as [| req reqs IH]; intros db; cbn.
  - exists []. now rewrite app_nil_r.
  - destruct (IH (after db req)) as [l2 E2].
    destruct (after_users_grow db req) as [l1 E1].
    exists (l1 ++ l2)%list. fold (run (after db req) reqs).
    now rewrite E2, E1, app_assoc.
Qed.

(** X16: no request removes, changes or reorders a user: after any
    sequence of requests the user table is the table before it followed
    by the users registered since, so every user is still there with the
    same id, username and password hash. *)
Theorem users_are_never_removed (db : DB) (reqs : list Request) :
  (exists l, users (run db reqs) = (users db ++ l)%list)
  /\ (forall u, In u (users db) -> In u (users (run db reqs))).
Proof.
  destruct (run_users_grow db reqs) as [l E]. split; [now exists l |].
  intros u Hu. rewrite E. apply in_or_app. now left.
Qed.

Lemma find_app_old {A} (p : A -> bool) (l l' : list A) (y : A) :
  find p l = Some y -> find p (l ++ l') = Some y.
Proof.
  induction l as [| a l IH]; cbn; [discriminate |].
  destruct (p a); [trivial | exact IH].
Qed.

(** X13: a login that is answered 200 is answered in the same way, with
    the token for the same user id, after any sequence of further
    requests: no route changes the password or the id of a user. *)
Theorem login_stays_valid (db : DB) (reqs : list Request) (body : CredentialsBody.t) :
  snd (response db (POST_login body)) = 200 ->
  response (run db reqs) (POST_login body) = response db (POST_login body).
Proof.
  intros H200.
  assert (exists username password,
            body = CredentialsBody.mk (Value username) (Value password))
    as (username & password & ->).
  { destruct body as [[| | username] [| | password]];
      try (cbn in H200; discriminate H200).
    - exfalso. revert H200. unfold_service. cbn.
      destruct (find _ (users db)); cbn; discriminate.
    - eauto. }
  unfold response in *. rewrite serve_login in H200. rewrite !serve_login.
  destruct (run_users_grow db reqs) as [l ->].
  destruct (find _ (users db)) as [u |] eqn:Hf; [| cbn in H200; discriminate H200].
  rewrite (find_app_old _ _ l _ Hf).
  destruct (check_password_hash _ _); [reflexivity | cbn in H200; discriminate H200].
Qed.

(** X17: a PUT never changes the id of a record, the number of records
    or their order, whatever its id and body are. *)
Theorem put_keeps_ids (db : DB) (a : option string) (i : Z)
    (tbody : TransactionBody.t) (cbody : CategoryBody.t) :
  map Transaction.id (transactions (after db (PUT_transactions a i tbody)))
  = map Transaction.id (transactions db)
  /\ map Category.id (categories (after db (PUT_categories a i cbody)))
     = map Category.id (categories db).
Proof.
  split; destruct_bodies; unfold_service; follow_handler;
    cbn [transactions categories];
    rewrite ?map_key_update by reflexivity; reflexivity.
Qed.

End Properties.

(* ================================================================= *)
(** ** The service on the example run *)

Section Examples.

#[local] Existing Instance example_libs.

Example example_db_reachable : reachable example_db.
Proof. exists example_requests. reflexivity. Qed.

Example currency_groups_thousands : currency 1234567.5%float true = "Rp1.234.567,50".
Proof. vm_compute. reflexivity. Qed.

Example currency_rounds_to_even : currency 0.125%float true = "Rp0,12".
Proof. vm_compute. reflexivity. Qed.

Example currency_negative : currency (-2500)%float true = "-Rp2.500,00".
Proof. vm_compute. reflexivity. Qed.

Example currency_below_thousand : currency 999.5%float true = "Rp999,50".
Proof. vm_compute. reflexivity. Qed.

Example currency_drops_below_cent : currency 0.001953125%float true = "Rp0,00".
Proof. vm_compute. reflexivity. Qed.

Example currency_infinite : currency infinity true = "Rpinf".
Proof. vm_compute. reflexivity. Qed.

Example cents_of_lunch : cents 15000%float = Some 1500000.
Proof. vm_compute. reflexivity. Qed.

Example cents_rounds_to_even : cents 0.125%float = Some 12.
Proof. vm_compute. reflexivity. Qed.

Example shown_cents_of_text : shown_cents "-Rp2.500,00" = 250000.
Proof. reflexivity. Qed.

Example example_libs_check_generate (salt : list byte) (password : string)
    (pw_hash : list byte) :
  hashpw salt password = Some pw_hash ->
  check_password_hash pw_hash password = true.
Proof.
  cbn. intros [= <-].
  rewrite length_app, Nat.add_sub, skipn_app, skipn_all, Nat.sub_diag.
  cbn. apply String.eqb_refl.
Qed.

Example unauthorized_is_refused :
  serve example_db (DELETE_transactions None 1)
  = ((JDict [("msg", JStr "Missing Authorization Header")], 401), example_db).
Proof. reflexivity. Qed.

Example null_description_is_refused_by_the_store :
  serve example_db
    (POST_transactions example_auth
       (TransactionBody.mk Null (Value 1%float) (Value 1) (Value "2024-03-01")))
  = ((message "Internal Server Error", 500), example_db).
Proof. reflexivity. Qed.

Example negative_zero_is_stored_as_zero :
  Transaction.amount
    (created example_db "Nothing" (-0)%float 1 (Date.mk 2024 3 1)) = 0%float.
Proof. reflexivity. Qed.

Example widest_category_id_is_stored :
  snd (response example_db
         (POST_transactions example_auth
            (TransactionBody.mk (Value "Dinner") (Value 42.5%float)
               (Value 9223372036854775807) (Value "2024-03-01")))) = 201.
Proof. reflexivity. Qed.

(** *** The claims on the example run *)

Lemma post_then_get_transaction_witness :
  reachable example_db
  /\ is_YYYY_MM_DD "2024-03-01" = true
  /\ exists i,
       response example_db
         (POST_transactions example_auth
            (TransactionBody.mk (Value "Dinner") (Value 42.5%float) (Value 1)
               (Value "2024-03-01")))
       = (message "Transaction created successfully", 201)
       /\ map Transaction.id
            (transactions
               (after example_db
                  (POST_transactions example_auth
                     (TransactionBody.mk (Value "Dinner") (Value 42.5%float) (Value 1)
                        (Value "2024-03-01")))))
          = (map Transaction.id (transactions example_db) ++ [i])%list
       /\ response
            (after example_db
               (POST_transactions example_auth
                  (TransactionBody.mk (Value "Dinner") (Value 42.5%float) (Value 1)
                     (Value "2024-03-01"))))
            (GET_transactions example_auth (Some i))
          = (JDict [("id", JInt i);
                    ("description", JStr "Dinner");
                    ("amount", JFloat 42.5%float);
                    ("category_id", JInt 1);
                    ("date", JStr "2024-03-01")], 200).
Proof.
  split; [exact example_db_reachable | split; [reflexivity |]].
  exact (post_then_get_transaction (L := example_libs) example_db example_auth
           "Dinner" 42.5%float 1 "2024-03-01" example_db_reachable
           eq_refl eq_refl eq_refl eq_refl eq_refl).
Defined.

(** C1 as stated fails: the date text "0987-01-05" is in the form
    YYYY-MM-DD and is accepted, and GET returns the date of the created
    record as "987-01-05". *)
Lemma post_then_get_transaction_short_year :
  ~ (forall db a description amount category_id date_str,
       reachable db ->
       verify_jwt_in_request a = None ->
       is_YYYY_MM_DD date_str = true ->
       exists i,
         map Transaction.id
           (transactions
              (after db (POST_transactions a
                           (TransactionBody.mk (Value description) (Value amount)
                              (Value category_id) (Value date_str)))))
         = (map Transaction.id (transactions db) ++ [i])%list
         /\ response
              (after db (POST_transactions a
                           (TransactionBody.mk (Value description) (Value amount)
                              (Value category_id) (Value date_str))))
              (GET_transactions a (Some i))
            = (JDict [("id", JInt i);
                      ("description", JStr description);
                      ("amount", JFloat amount);
                      ("category_id", JInt category_id);
                      ("date", JStr date_str)], 200)).
Proof.
  intros H.
  destruct (H example_db example_auth "Old" 42.5%float 1 "0987-01-05"
              example_db_reachable eq_refl eq_refl) as (i & Hi & Hget).
  vm_compute in Hi. injection Hi as <-. vm_compute in Hget. discriminate Hget.
Qed.

Lemma put_transaction_all_or_nothing_witness :
  serve example_db
    (PUT_transactions example_auth 1
       (TransactionBody.mk (Value "Brunch") (Value 99%float) (Value 7)
          (Value "2024-13-01")))
  = ((message "Invalid date format. Please use YYYY-MM-DD format.", 400), example_db).
Proof.
  exact (proj1 (put_transaction_all_or_nothing (L := example_libs) example_db
                  example_auth 1 lunch_row "Brunch" 99%float 7 "2024-13-01"
                  eq_refl eq_refl) eq_refl).
Defined.

Lemma login_refusals_are_uniform_witness :
  serve example_db (POST_login (CredentialsBody.mk (Value "bob") (Value "secret")))
  = ((message "Invalid username or password", 401), example_db)
  /\ serve example_db (POST_login (CredentialsBody.mk (Value "alice") (Value "guess")))
     = ((message "Invalid username or password", 401), example_db)
  /\ serve example_db (POST_login (CredentialsBody.mk (Value "alice") (Value "secret")))
     = ((JDict [("access_token", JStr "token-1")], 200), example_db).
Proof.
  pose proof (login_refusals_are_uniform (L := example_libs) example_db
                "bob" "secret" "alice" "guess"
                (User.mk 1 "alice" [x01; x74; x65; x72; x63; x65; x73])
                eq_refl eq_refl eq_refl) as (H1 & H2 & H3).
  split; [exact H1 | split; [exact H2 | exact (H3 "secret" eq_refl)]].
Defined.

Lemma register_twice_witness :
  response empty_db (POST_register [x01] alice)
  = (message "User registered successfully", 201)
  /\ users (after empty_db (POST_register [x01] alice))
     = [User.mk 1 "alice" [x01; x74; x65; x72; x63; x65; x73]]
  /\ serve (after empty_db (POST_register [x01] alice))
           (POST_register [x02] (CredentialsBody.mk (Value "alice") (Value "other")))
     = ((message "Username already exists", 400),
        after empty_db (POST_register [x01] alice))
  /\ snd (response empty_db
            (POST_register [x01] (CredentialsBody.mk (Value "alice") (Value ""))))
     = 500
  /\ after empty_db
       (POST_register [x01] (CredentialsBody.mk (Value "alice") (Value "")))
     = empty_db.
Proof.
  apply (register_twice (L := example_libs) empty_db [x01] [x02] "alice" "secret"
           "other" [x01; x74; x65; x72; x63; x65; x73]);
    [reflexivity | discriminate | reflexivity].
Defined.

(** C4 as stated fails: a first POST /register with the empty password,
    under a username no user has, is not answered 201. *)
Lemma register_empty_password :
  ~ (forall db salt username password,
       find (fun x => String.eqb (User.username x) username) (users db) = None ->
       snd (response db
              (POST_register salt
                 (CredentialsBody.mk (Value username) (Value password)))) = 201).
Proof.
  intros H. specialize (H empty_db [x01] "alice" "" eq_refl).
  vm_compute in H. discriminate H.
Qed.

Lemma post_transaction_checks_date_witness :
  serve example_db
    (POST_transactions example_auth
       (TransactionBody.mk (Value "Dinner") (Value 42.5%float) (Value 1)
          (Value "2024-13-01")))
  = ((message "Invalid date format. Please use YYYY-MM-DD format.", 400), example_db).
Proof.
  exact (proj1 (post_transaction_checks_date (L := example_libs) example_db example_auth "Dinner"
                  42.5%float 1 "2024-13-01" eq_refl) eq_refl).
Defined.

(** C5 as stated fails: a body with the amount NaN and a date that
    parses is well typed, and it is not answered 201. *)
Lemma post_transaction_nan_amount :
  ~ (forall db a description amount category_id date_str date,
       verify_jwt_in_request a = None ->
       strptime date_str = Some date ->
       snd (response db
              (POST_transactions a
                 (TransactionBody.mk (Value description) (Value amount)
                    (Value category_id) (Value date_str)))) = 201).
Proof.
  intros H.
  specialize (H example_db example_auth "Dinner" nan 1 "2024-03-01"
                (Date.mk 2024 3 1) eq_refl eq_refl).
  vm_compute in H. discriminate H.
Qed.

Lemma delete_then_delete_again_witness :
  response example_db (DELETE_transactions example_auth 1)
  = (message "Transaction deleted successfully", 200)
  /\ serve (after example_db (DELETE_transactions example_auth 1))
           (DELETE_transactions example_auth 1)
     = ((message "Transaction not found", 404),
        after example_db (DELETE_transactions example_auth 1))
  /\ response example_db (DELETE_categories example_auth 1)
     = (message "Category deleted successfully", 200)
  /\ serve (after example_db (DELETE_categories example_auth 1))
           (DELETE_categories example_auth 1)
     = ((message "Category not found", 404),
        after example_db (DELETE_categories example_auth 1)).
Proof.
  destruct (delete_then_delete_again (L := example_libs) example_db example_auth 1
              eq_refl eq_refl) as [Ht Hc].
  destruct (Ht lunch_row eq_refl) as (T1 & _ & _ & _ & _ & T2).
  destruct (Hc (Category.mk 1 "Food") eq_refl) as (C1 & _ & _ & _ & _ & C2).
  repeat split; assumption.
Defined.

Lemma amount_renderings_witness :
  response example_db (GET_transactions example_auth (Some 1))
  = (Transaction_json lunch_row (JFloat 15000%float), 200)
  /\ json_field "amount" (Transaction_json lunch_row (JFloat 15000%float))
     = Some (JFloat 15000%float)
  /\ (exists items item,
        response example_db (GET_transactions example_auth None) = (JList items, 200)
        /\ In item items
        /\ json_field "id" item = Some (JInt 1)
        /\ json_field "amount" item = Some (JStr (currency 15000%float true)))
  /\ currency 15000%float true = rupiah false 1500000
  /\ shown_cents (currency 15000%float true) = 1500000
  /\ currency 15000%float true = "Rp15.000,00".
Proof.
  destruct (amount_renderings (L := example_libs) example_db example_auth lunch_row
              example_db_reachable eq_refl (or_introl eq_refl))
    as (H1 & _ & H3 & (items & item & I1 & I2 & _ & I4 & I5) & Hc & _ & H7).
  destruct (Hc 1500000 cents_of_lunch) as (_ & C2 & C3).
  split; [exact H1 |]. split; [exact H3 |].
  split; [exists items, item; repeat split; assumption |].
  split; [exact C2 |]. split; [exact C3 | exact H7].
Defined.

Lemma post_transaction_ignores_categories_witness :
  find (fun c => Category.id c =? 99) (categories example_db) = None
  /\ response example_db
       (POST_transactions example_auth
          (TransactionBody.mk (Value "Dinner") (Value 42.5%float) (Value 99)
             (Value "2024-03-01")))
     = (message "Transaction created successfully", 201)
  /\ exists t,
       In t (transactions
               (after example_db
                  (POST_transactions example_auth
                     (TransactionBody.mk (Value "Dinner") (Value 42.5%float) (Value 99)
                        (Value "2024-03-01")))))
       /\ Transaction.category_id t = 99
       /\ find (fun c => Category.id c =? Transaction.category_id t)
               (categories
                  (after example_db
                     (POST_transactions example_auth
                        (TransactionBody.mk (Value "Dinner") (Value 42.5%float) (Value 99)
                           (Value "2024-03-01")))))
          = None.
Proof.
  destruct (post_transaction_ignores_categories (L := example_libs) example_db example_auth "Dinner"
              42.5%float 99 "2024-03-01" (Date.mk 2024 3 1) eq_refl eq_refl eq_refl eq_refl)
    as (H1 & _ & _ & H4).
  split; [reflexivity | split; [exact H1 | exact (H4 eq_refl)]].
Defined.

(** C9 as stated fails: a body with a date that parses, an amount that
    is a number and the category id 2^63, which no category has, is well
    typed, and it is not answered 201. *)
Lemma post_transaction_wide_category_id :
  ~ (forall db a description amount category_id date_str date,
       verify_jwt_in_request a = None ->
       strptime date_str = Some date ->
       PrimFloat.is_nan amount = false ->
       find (fun c => Category.id c =? category_id) (categories db) = None ->
       snd (response db
              (POST_transactions a
                 (TransactionBody.mk (Value description) (Value amount)
                    (Value category_id) (Value date_str)))) = 201).
Proof.
  intros H.
  specialize (H example_db example_auth "Dinner" 42.5%float 9223372036854775808
                "2024-03-01" (Date.mk 2024 3 1) eq_refl eq_refl eq_refl eq_refl).
  vm_compute in H. discriminate H.
Qed.

Lemma get_id_zero_lists_witness :
  serve example_db (GET_transactions example_auth (Some 0))
  = ((JList [Transaction_json lunch_row (JStr "Rp15.000,00")], 200), example_db)
  /\ serve example_db (GET_categories example_auth (Some 0))
     = ((JList [Category_json (Category.mk 1 "Food")], 200), example_db)
  /\ serve example_db (GET_transactions example_auth (Some 0))
     = serve example_db (GET_transactions example_auth None)
  /\ serve example_db (GET_categories example_auth (Some 0))
     = serve example_db (GET_categories example_auth None).
Proof.
  exact (get_id_zero_lists (L := example_libs) example_db example_auth eq_refl).
Defined.

Lemma category_names_are_supplied_witness :
  response example_db (PUT_categories example_auth 1 (CategoryBody.mk (Value "")))
  = (message "Category updated successfully", 200)
  /\ find (fun x => Category.id x =? 1)
          (categories
             (after example_db
                (PUT_categories example_auth 1 (CategoryBody.mk (Value "")))))
     = Some (Category.mk 1 "")
  /\ snd (response example_db (PUT_categories example_auth 1 (CategoryBody.mk Null)))
     = 500.
Proof.
  destruct (category_names_are_supplied (L := example_libs) []) as (_ & _ & H).
  destruct (H example_db example_auth 1 (Category.mk 1 "Food") "" eq_refl eq_refl)
    as (H1 & H2 & _ & _ & H5 & _).
  split; [exact H1 | split; [exact H2 | exact H5]].
Defined.

(** C8 as stated fails: one POST /categories whose body has the empty
    text as name, on the empty store, stores a category without a name. *)
Lemma category_name_can_be_empty :
  ~ (forall db, category_reachable db ->
                Forall (fun c => Category.name c <> "") (categories db)).
Proof.
  intros H.
  specialize (H (run empty_db [POST_categories example_auth (CategoryBody.mk (Value ""))])).
  assert (Hr : category_reachable
                 (run empty_db [POST_categories example_auth (CategoryBody.mk (Value ""))])).
  { exists [POST_categories example_auth (CategoryBody.mk (Value ""))].
    split; reflexivity. }
  specialize (H Hr). cbn in H. inversion H as [| ? ? Hname _]. now apply Hname.
Qed.

(** *** The further properties on the example run *)

Lemma refused_request_changes_nothing_witness :
  serve example_db (POST_transactions None lunch) = (missing_header, example_db).
Proof.
  exact (refused_request_changes_nothing (L := example_libs) example_db
           (POST_transactions None lunch) None missing_header eq_refl eq_refl).
Defined.

Lemma failed_request_changes_nothing_witness :
  snd (response example_db (DELETE_transactions example_auth 7)) = 404
  /\ after example_db (DELETE_transactions example_auth 7) = example_db.
Proof.
  split; [reflexivity |].
  apply (failed_request_changes_nothing (L := example_libs)); vm_compute; lia.
Defined.

Lemma put_unknown_id_is_404_witness :
  serve example_db
    (PUT_transactions example_auth 7 (TransactionBody.mk Absent Absent Absent Absent))
  = ((message "Transaction not found", 404), example_db)
  /\ serve example_db (PUT_categories example_auth 7 (CategoryBody.mk Absent))
     = ((message "Category not found", 404), example_db)
  /\ snd (response example_db
            (PUT_transactions example_auth 9223372036854775808 lunch)) = 500.
Proof.
  destruct (put_unknown_id_is_404 (L := example_libs) example_db example_auth 7
              (TransactionBody.mk Absent Absent Absent Absent) (CategoryBody.mk Absent)
              eq_refl) as [Ht Hc].
  destruct (put_unknown_id_is_404 (L := example_libs) example_db example_auth
              9223372036854775808 lunch (CategoryBody.mk Absent) eq_refl) as [Hw _].
  split; [exact (proj1 (Ht eq_refl) eq_refl) |].
  split; [exact (proj1 (Hc eq_refl) eq_refl) |].
  exact (proj1 (proj2 (Hw eq_refl) eq_refl)).
Defined.

Lemma transaction_body_missing_field_witness :
  (exists field help,
      response example_db
        (POST_transactions example_auth
           (TransactionBody.mk (Value "Tea") Absent Absent (Value "not a date")))
      = (JDict [("message", JDict [(field, JStr help)])], 400)
      /\ field = "amount")
  /\ after example_db
       (POST_transactions example_auth
          (TransactionBody.mk (Value "Tea") Absent Absent (Value "not a date")))
     = example_db
  /\ after example_db
       (PUT_transactions example_auth 1
          (TransactionBody.mk (Value "Tea") Absent Absent (Value "not a date")))
     = example_db
  /\ snd (response example_db
            (POST_transactions example_auth
               (TransactionBody.mk (Value "Tea") Null (Value 1) (Value "2024-03-01"))))
     = 500.
Proof.
  destruct (proj1 (transaction_body_missing_field (L := example_libs) example_db
                     example_auth
                     (TransactionBody.mk (Value "Tea") Absent Absent (Value "not a date"))
                     eq_refl) eq_refl)
    as ((field & help & E & Hfield) & Hpost & Hput).
  destruct (proj2 (transaction_body_missing_field (L := example_libs) example_db
                     example_auth
                     (TransactionBody.mk (Value "Tea") Null (Value 1) (Value "2024-03-01"))
                     eq_refl) eq_refl eq_refl)
    as (Hnull & _).
  { intros date_str [= <-]. discriminate. }
  split; [| split; [exact Hpost |
                    split; [exact (proj2 (Hput 1 lunch_row eq_refl)) | exact Hnull]]].
  exists field, help. split; [exact E |].
  destruct Hfield as [[_ H] | [[H _] | [(_ & _ & H & _) | (_ & _ & H & _)]]];
    [discriminate H | exact H | now contradiction H | now contradiction H].
Defined.

Lemma credentials_missing_field_witness :
  snd (response example_db (POST_login (CredentialsBody.mk (Value "nobody") Absent)))
  = 400
  /\ after example_db
       (POST_register [x01] (CredentialsBody.mk (Value "nobody") Absent))
     = example_db
  /\ serve example_db (POST_login (CredentialsBody.mk Null (Value "secret")))
     = ((message "Invalid username or password", 401), example_db)
  /\ snd (response example_db
            (POST_register [x01] (CredentialsBody.mk Null (Value "secret")))) = 500.
Proof.
  destruct (proj1 (credentials_missing_field (L := example_libs) example_db [x01]
                     (CredentialsBody.mk (Value "nobody") Absent))
              (or_intror eq_refl))
    as (_ & Hreg & Hlogin & _).
  destruct (proj2 (credentials_missing_field (L := example_libs) example_db [x01]
                     (CredentialsBody.mk Null (Value "secret")))
              eq_refl ltac:(discriminate))
    as (N1 & N2 & _).
  split; [exact Hlogin | split; [exact Hreg | split; [exact N1 | exact N2]]].
Defined.

Lemma reachable_rows_have_distinct_keys_witness :
  1 <= Transaction.id lunch_row /\ 1 <= Category.id (Category.mk 1 "Food").
Proof.
  destruct (reachable_rows_have_distinct_keys (L := example_libs) example_db
              example_db_reachable) as (_ & _ & _ & Ht & Hc & _).
  split; [exact (Ht lunch_row (or_introl eq_refl))
         | exact (Hc (Category.mk 1 "Food") (or_introl eq_refl))].
Defined.

Lemma id_zero_is_not_found_witness :
  serve example_db (DELETE_transactions example_auth 0)
  = ((message "Transaction not found", 404), example_db)
  /\ serve example_db (DELETE_categories example_auth 0)
     = ((message "Category not found", 404), example_db).
Proof.
  destruct (id_zero_is_not_found (L := example_libs) example_db example_auth lunch
              (CategoryBody.mk (Value "Rent")) example_db_reachable eq_refl)
    as (_ & Ht & _ & Hc).
  split; [exact Ht | exact Hc].
Defined.

Lemma post_then_get_category_witness :
  exists i,
    response example_db (POST_categories example_auth (CategoryBody.mk (Value "Rent")))
    = (message "Category created successfully", 201)
    /\ map Category.id
         (categories
            (after example_db
               (POST_categories example_auth (CategoryBody.mk (Value "Rent")))))
       = (map Category.id (categories example_db) ++ [i])%list
    /\ response
         (after example_db
            (POST_categories example_auth (CategoryBody.mk (Value "Rent"))))
         (GET_categories example_auth (Some i))
       = (JDict [("id", JInt i); ("name", JStr "Rent")], 200).
Proof.
  exact (post_then_get_category (L := example_libs) example_db example_auth "Rent"
           example_db_reachable eq_refl).
Defined.

Lemma post_then_delete_restores_witness :
  snd (response example_db
         (POST_transactions example_auth
            (TransactionBody.mk (Value "Dinner") (Value 42.5%float) (Value 1)
               (Value "2024-03-01")))) = 201
  /\ serve (after example_db
              (POST_transactions example_auth
                 (TransactionBody.mk (Value "Dinner") (Value 42.5%float) (Value 1)
                    (Value "2024-03-01"))))
           (DELETE_transactions example_auth 2)
     = ((message "Transaction deleted successfully", 200), example_db).
Proof.
  split; [reflexivity |].
  exact (post_then_delete_restores (L := example_libs) example_db example_auth
           (TransactionBody.mk (Value "Dinner") (Value 42.5%float) (Value 1)
              (Value "2024-03-01")) eq_refl eq_refl).
Defined.

Lemma post_keeps_existing_rows_witness :
  find (fun x => Transaction.id x =? 1)
    (transactions
       (after example_db
          (POST_transactions example_auth
             (TransactionBody.mk (Value "Dinner") (Value 42.5%float) (Value 1)
                (Value "2024-03-01")))))
  = Some lunch_row.
Proof.
  exact (proj1 (post_keeps_existing_rows (L := example_libs) example_db example_auth
                  (TransactionBody.mk (Value "Dinner") (Value 42.5%float) (Value 1)
                     (Value "2024-03-01"))
                  (CategoryBody.mk (Value "Rent")) 1) lunch_row eq_refl).
Defined.

Lemma stored_dates_are_calendar_days_witness :
  row_ok lunch_row
  /\ is_YYYY_MM_DD (strftime (Date.mk 2024 2 29)) = true
  /\ strptime (strftime (Date.mk 2024 2 29)) = Some (Date.mk 2024 2 29).
Proof.
  destruct (stored_dates_are_calendar_days (L := example_libs) example_db
              lunch_row example_db_reachable (or_introl eq_refl)) as (H1 & H2 & _).
  split; [exact H1 |]. apply H2. cbn. lia.
Defined.

Lemma put_back_what_get_shows_witness :
  serve example_db
    (PUT_transactions example_auth 1
       (TransactionBody.mk (Value "Lunch") (Value 15000%float) (Value 1)
          (Value "2024-02-29")))
  = ((message "Transaction updated successfully", 200), example_db).
Proof.
  apply (proj1 (put_back_what_get_shows (L := example_libs) example_db example_auth
                  lunch_row example_db_reachable eq_refl (or_introl eq_refl))).
  cbn. lia.
Defined.

Lemma resources_change_only_their_table_witness :
  categories (after example_db (DELETE_transactions example_auth 1))
  = categories example_db
  /\ users (after example_db (DELETE_transactions example_auth 1))
     = users example_db.
Proof.
  exact (proj1 (resources_change_only_their_table (L := example_libs) example_db
                  (DELETE_transactions example_auth 1)) eq_refl).
Defined.

Lemma login_stays_valid_witness :
  response
    (run example_db
       [DELETE_transactions example_auth 1;
        POST_register [x02] (CredentialsBody.mk (Value "bob") (Value "hunter2"))])
    (POST_login alice)
  = (JDict [("access_token", JStr "token-1")], 200).
Proof.
  exact (login_stays_valid (L := example_libs) example_db
           [DELETE_transactions example_auth 1;
            POST_register [x02] (CredentialsBody.mk (Value "bob") (Value "hunter2"))]
           alice eq_refl).
Defined.

Lemma register_then_login_witness :
  response (after empty_db (POST_register [x01] alice)) (POST_login alice)
  = (JDict [("access_token", JStr "token-1")], 200).
Proof.
  apply (register_then_login (L := example_libs) example_libs_check_generate
           empty_db [x01] "alice" "secret" [x01; x74; x65; x72; x63; x65; x73]);
    [reflexivity | discriminate | reflexivity].
Defined.

End Examples.
